(** * android_tools.py: Burp certificate installation and Frida server deployment

    A shallow embedding of [android_tools.py] and the properties of its
    device-targeting, artifact-fetching and deployment workflow.

    Conventions of the embedding.
    - A Python [str] is a [string] whose characters are read as the code
      points 0..255; the character classes below ([isspace], [isdigit],
      the regex class [\d]) are Python's, restricted to that range.
    - A function that talks to the outside (a child process, the network,
      the terminal) runs in the monad [M]: a state holding the module's
      globals, the local files and a log of what was done, and a result that
      is either a value or a raised exception.
    - What the outside answers is given by an environment [Env], asked
      with the number of interactions made so far, so that the same command
      may succeed once and fail later. *)

From Stdlib Require Import ZArith String Ascii List Bool Lia.
From stdpp Require Import base option gmap strings list.

Local Open Scope string_scope.
Local Open Scope list_scope.
Local Open Scope Z_scope.

Set Default Proof Using "Type".

(** ** Python string operations *)

Module PyStr.

Definition code (c : ascii) : N := N_of_ascii c.

Definition in_range (lo hi : N) (c : ascii) : bool :=
  ((lo <=? code c) && (code c <=? hi))%N.

(** [str.isspace] on one character: TAB..CR, FS..US, space, NEL, NBSP. *)
Definition isspace (c : ascii) : bool :=
  in_range 9 13 c || in_range 28 32 c || in_range 133 133 c
  || in_range 160 160 c.

(** A decimal digit (category Nd): what [\d] and [int] accept. *)
Definition isdecimal (c : ascii) : bool := in_range 48 57 c.

(** [str.isdigit] on one character: the decimal digits and the
    superscript digits two, three and one (code points 178, 179, 185). *)
Definition isdigit_char (c : ascii) : bool :=
  isdecimal c || in_range 178 179 c || in_range 185 185 c.

Fixpoint forallb_str (p : ascii -> bool) (s : string) : bool :=
  match s with
  | EmptyString => true
  | String c s' => p c && forallb_str p s'
  end.

Definition nonempty (s : string) : bool :=
  match s with EmptyString => false | _ => true end.

(** [s.isdigit()]: non-empty and every character is a digit. *)
Definition isdigit (s : string) : bool :=
  nonempty s && forallb_str isdigit_char s.

Fixpoint rev_onto (s acc : string) : string :=
  match s with
  | EmptyString => acc
  | String c s' => rev_onto s' (String c acc)
  end.

Definition rev (s : string) : string := rev_onto s EmptyString.

Fixpoint lstrip (s : string) : string :=
  match s with
  | EmptyString => EmptyString
  | String c s' => if isspace c then lstrip s' else s
  end.

Definition rstrip (s : string) : string := rev (lstrip (rev s)).

(** [s.strip()] *)
Definition strip (s : string) : string := rstrip (lstrip s).

(** [s.split(sep)] for a one-character separator: never empty. *)
Fixpoint split_on (sep : ascii) (s : string) : list string :=
  match s with
  | EmptyString => [EmptyString]
  | String c s' =>
      if Ascii.eqb c sep then EmptyString :: split_on sep s'
      else match split_on sep s' with
           | w :: ws => String c w :: ws
           | [] => [String c EmptyString]
           end
  end.

(** [s.split()]: the maximal runs of non-whitespace characters. *)
Fixpoint split (s : string) : list string :=
  match s with
  | EmptyString => []
  | String c s' =>
      if isspace c then split s'
      else match s' with
           | EmptyString => [String c EmptyString]
           | String c' _ =>
               if isspace c' then String c EmptyString :: split s'
               else match split s' with
                    | w :: ws => String c w :: ws
                    | [] => [String c EmptyString]
                    end
           end
  end.

(** The value of a string of decimal digits, most significant first. *)
Fixpoint decimal_value (acc : Z) (s : string) : Z :=
  match s with
  | EmptyString => acc
  | String c s' => decimal_value (10 * acc + (Z.of_N (code c) - 48)) s'
  end.

(** [int(s)] on the strings the program passes to it.  The program calls
    [int] only behind [s.isdigit()], so signs, underscores and
    surrounding blanks never reach it.  [int] raises [ValueError], here
    [None], on a digit that is not decimal (a superscript) and on more
    digits than the interpreter's limit allows
    ([sys.get_int_max_str_digits()], 4300 unless changed, 0 for none). *)
Definition int (limit : nat) (s : string) : option Z :=
  if nonempty s && forallb_str isdecimal s then
    if (0 <? limit)%nat && (limit <? String.length s)%nat then None
    else Some (decimal_value 0 s)
  else None.

Fixpoint prefix (p s : string) : bool :=
  match p, s with
  | EmptyString, _ => true
  | String a p', String b s' => Ascii.eqb a b && prefix p' s'
  | String _ _, EmptyString => false
  end.

(** [p in s]: [p] occurs in [s] as a substring. *)
Fixpoint contains (p s : string) : bool :=
  prefix p s ||
  match s with
  | EmptyString => false
  | String _ s' => contains p s'
  end.

End PyStr.

(** ** Architecture resolution and validation *)

(** The [mapping] dictionary of [map_abi_to_frida_arch]. *)
Definition mapping : gmap string string :=
  <["arm64-v8a" := "android-arm64"]>
  (<["armeabi-v7a" := "android-arm"]>
  (<["armeabi" := "android-arm"]>
  (<["x86_64" := "android-x86_64"]>
  (<["x86" := "android-x86"]> ∅)))).

(** [mapping.get(abi, 'android-arm64')] *)
Definition map_abi_to_frida_arch (abi : string) : string :=
  default "android-arm64" (mapping !! abi).

Definition valid_archs : list string :=
  ["android-arm64"; "android-arm"; "android-x86_64"; "android-x86"].

Definition str_in (s : string) (l : list string) : bool :=
  existsb (String.eqb s) l.

(** The [expected_abi_keywords] dictionary of [setup_frida_server]. *)
Definition expected_abi_keywords : gmap string string :=
  <["android-arm64" := "arm64"]>
  (<["android-arm" := "arm"]>
  (<["android-x86_64" := "x86_64"]>
  (<["android-x86" := "x86"]> ∅))).

(** ** Regular expressions, as far as the program uses them *)

Module Regex.

Inductive re : Type :=
| Void                       (* matches nothing *)
| Eps                        (* the empty string *)
| Lit (c : ascii)            (* one given character *)
| Digit                      (* \d *)
| Cat (r s : re)
| Alt (r s : re)
| Star (r : re).

(** [r+] *)
Definition Plus (r : re) : re := Cat r (Star r).

Fixpoint nullable (r : re) : bool :=
  match r with
  | Void => false
  | Eps => true
  | Lit _ => false
  | Digit => false
  | Cat r s => nullable r && nullable s
  | Alt r s => nullable r || nullable s
  | Star _ => true
  end.

(** Brzozowski derivative of [r] by the character [a]. *)
Fixpoint deriv (a : ascii) (r : re) : re :=
  match r with
  | Void => Void
  | Eps => Void
  | Lit c => if Ascii.eqb a c then Eps else Void
  | Digit => if PyStr.isdecimal a then Eps else Void
  | Cat r s =>
      if nullable r then Alt (Cat (deriv a r) s) (deriv a s)
      else Cat (deriv a r) s
  | Alt r s => Alt (deriv a r) (deriv a s)
  | Star r => Cat (deriv a r) (Star r)
  end.

(** The whole of [s] is a word of [r]. *)
Fixpoint fullmatch (r : re) (s : string) : bool :=
  match s with
  | EmptyString => nullable r
  | String a s' => fullmatch (deriv a r) s'
  end.

(** What [$] stands for when it ends a pattern used without
    [re.MULTILINE]: the end of the string, or the position just before a
    newline that is the last character of the string. *)
Definition dollar : re := Alt Eps (Lit "010").

(** [re.match('^' r '$', s)] is not [None]: [^] holds at the start, where
    [re.match] begins anyway, and what follows [r] is as [$] allows. *)
Definition match_anchored (r : re) (s : string) : bool :=
  fullmatch (Cat r dollar) s.

End Regex.

(** The pattern [\d+\.\d+\.\d+] of [validate_frida_version]. *)
Definition version_pattern : Regex.re :=
  Regex.Cat (Regex.Plus Regex.Digit)
    (Regex.Cat (Regex.Lit ".")
       (Regex.Cat (Regex.Plus Regex.Digit)
          (Regex.Cat (Regex.Lit ".") (Regex.Plus Regex.Digit)))).

(** ** The state of the program and of its surroundings *)

(** [subprocess.CompletedProcess] with captured text output. *)
Record CompletedProcess : Type := mkCompleted {
  returncode : Z;
  stdout : string;
  stderr : string
}.

(** The exceptions the modelled code can meet.  All but [SystemExit] are
    subclasses of [Exception]. *)
Inductive exn : Type :=
| CalledProcessError (cmd : list string) (r : CompletedProcess)
| ValueError
| TypeError
| IndexError
| FileNotFoundError (path : string)
| OSError
| URLError
| LZMAError
| SystemExit (status : Z).

Definition is_Exception (e : exn) : bool :=
  match e with SystemExit _ => false | _ => true end.

(** The module's globals that [main] assigns ([None] before that). *)
Record Config : Type := mkConfig {
  CERT_FILE : option string;
  FRIDA_VER : option string;
  FRIDA_ARCH : option string;
  FRIDA_URL : option string;
  AUTO_DETECT_ARCH : bool;
  LOCAL_XZ : option string
}.

Definition DEVICE_CERT_DIR : string := "/system/etc/security/cacerts".
Definition REMOTE_BIN : string := "/data/local/tmp/frida-server".

(** What the program prints, by occasion rather than by wording. *)
Inductive message : Type :=
| MsgCommandFailed (cmd : list string)
| MsgBadVersion (v : string)
| MsgBadArch (a : string)
| MsgCertStart | MsgNoAdb | MsgNoOpenssl | MsgNoCertFile
| MsgConverting | MsgRemount | MsgPushCert (name : string) | MsgSetPermission
| MsgReboot | MsgCertDone | MsgError (e : exn)
| MsgCheckingDevices | MsgNoDevices | MsgDevicesFound
| MsgDeviceEntry (i : nat) (serial : string) | MsgAllDevicesOption
| MsgInvalidChoice
| MsgDeviceHeader (serial : string) | MsgCheckAbi | MsgAbi (abi : string)
| MsgDetectedArch (arch : string) | MsgArchMismatch (abi : string)
| MsgDownloading (url : option string) | MsgDownloadFailed (e : exn)
| MsgExtracting | MsgExtractFailed (e : exn)
| MsgPushing | MsgPushFailed | MsgKillOld | MsgSelinux | MsgLaunching
| MsgSuFailed | MsgCheckStatus (serial : string) | MsgNotObserved
| MsgProcesses (lines : string)
| MsgFridaStart | MsgTryFridaPs (serial : string) | MsgNoFridaPs | MsgAllDone
| MsgBanner (c : Config) | MsgMenu | MsgBye | MsgChoose1to4.

#[global] Instance CompletedProcess_eq_dec : EqDecision CompletedProcess.
Proof. solve_decision. Defined.

#[global] Instance exn_eq_dec : EqDecision exn.
Proof. solve_decision. Defined.

#[global] Instance Config_eq_dec : EqDecision Config.
Proof. solve_decision. Defined.

#[global] Instance message_eq_dec : EqDecision message.
Proof. solve_decision. Defined.

(** What [urllib.request.urlretrieve] meets: the body of the resource, or a
    failure that may leave a truncated file behind. *)
Inductive fetch_result : Type :=
| Fetched (body : string)
| FetchFailed (partial : option string).

(** What the program does to the outside, in the order it does it. *)
Inductive event : Type :=
| Print (m : message)
| Exec (cmd : list string) (r : CompletedProcess)
| Input (answer : string)
| Urlretrieve (url dest : string) (answer : fetch_result)
| Sleep (seconds : Z).

#[global] Instance fetch_result_eq_dec : EqDecision fetch_result.
Proof. solve_decision. Defined.

#[global] Instance event_eq_dec : EqDecision event.
Proof. solve_decision. Defined.

(** The surroundings.  Every answer depends on the number of interactions
    the program has made so far. *)
Record Env : Type := mkEnv {
  (** [Path("../tmp").resolve()], fixed when the module is loaded *)
  LOCAL_DIR : string;
  (** [shutil.which(tool) is not None] *)
  which : nat -> string -> bool;
  (** exit status and output of a child process *)
  respond : nat -> list string -> CompletedProcess;
  (** what a child process leaves in the file named after [-out];
      [None] when it does not touch it *)
  writes : nat -> list string -> option string;
  (** what the operator types *)
  typed : nat -> string;
  (** the answer of the artifact host *)
  fetch : nat -> string -> fetch_result;
  (** [lzma] decompression of a file's content *)
  unxz : string -> option string;
  (** whether the system lets a directory be made, a file be renamed *)
  mkdir_ok : nat -> bool;
  rename_ok : nat -> bool;
  (** [sys.get_int_max_str_digits()] *)
  int_max_str_digits : nat
}.

Record State : Type := mkState {
  globals : Config;
  files : gmap string string;      (* local files: path to content *)
  now : nat;                       (* interactions made so far *)
  log : list event
}.

Inductive result (A : Type) : Type :=
| Ret (a : A)
| Raise (e : exn).
Arguments Ret {A} a.
Arguments Raise {A} e.

Definition M (A : Type) : Type := State -> result A * State.

Definition ret {A} (a : A) : M A := fun st => (Ret a, st).

Definition bind {A B} (m : M A) (f : A -> M B) : M B := fun st =>
  match m st with
  | (Ret a, st') => f a st'
  | (Raise e, st') => (Raise e, st')
  end.

(** [raise e] *)
Definition throw {A} (e : exn) : M A := fun st => (Raise e, st).

Declare Scope M_scope.
Delimit Scope M_scope with M.
Bind Scope M_scope with M.
Notation "x ← y ; z" := (bind y (fun x => z))
  (at level 20, y at level 100, z at level 200, only parsing) : M_scope.
Notation "x ;; z" := (bind x (fun _ => z))
  (at level 100, z at level 200, only parsing, right associativity) : M_scope.
Local Open Scope M_scope.

(** [try: body / except Exception as e: handler e] *)
Definition try_except {A} (body : M A) (handler : exn -> M A) : M A :=
  fun st =>
    match body st with
    | (Ret a, st') => (Ret a, st')
    | (Raise e, st') =>
        if is_Exception e then handler e st' else (Raise e, st')
    end.

(** [for x in l: body x] *)
Fixpoint for_each {A} (l : list A) (body : A -> M unit) : M unit :=
  match l with
  | [] => ret tt
  | x :: l' => body x ;; for_each l' body
  end.

Definition get_globals : M Config := fun st => (Ret (globals st), st).

Definition set_globals (f : Config -> Config) : M unit := fun st =>
  (Ret tt, mkState (f (globals st)) (files st) (now st) (log st)).

Definition get_files : M (gmap string string) := fun st => (Ret (files st), st).

Definition set_files (f : gmap string string -> gmap string string) : M unit :=
  fun st => (Ret tt, mkState (globals st) (f (files st)) (now st) (log st)).

Definition emit (e : event) : M unit := fun st =>
  (Ret tt, mkState (globals st) (files st) (now st) (log st ++ [e])).

(** Asking the surroundings takes one unit of time. *)
Definition ask {A} (q : nat -> A) : M A := fun st =>
  (Ret (q (now st)), mkState (globals st) (files st) (S (now st)) (log st)).

Definition print (m : message) : M unit := emit (Print m).

(** ** The program *)

Record Args : Type := mkArgs {
  frida_version : string;          (* default '17.5.2' *)
  frida_arch : option string;      (* None when the flag is absent *)
  cert_file : string;              (* default './burp.cer' *)
  auto_detect_arch : bool
}.

(** How an f-string shows a global that may still be [None]. *)
Definition fmt (o : option string) : string := default "None" o.

(** The file an [openssl x509] command line writes: the argument of its
    [-out] option.  [-in] and [-inform] take an argument too, which is
    skipped unread. *)
Fixpoint x509_out (args : list string) : option string :=
  match args with
  | [] => None
  | a :: rest =>
      if String.eqb a "-out" then head rest
      else if String.eqb a "-in" || String.eqb a "-inform" then
        match rest with
        | _ :: rest' => x509_out rest'
        | [] => None
        end
      else x509_out rest
  end.

(** The local file a child process writes, for the commands the program
    runs: only the certificate conversions write one. *)
Definition out_file (cmd : list string) : option string :=
  match cmd with
  | tool :: sub :: args =>
      if String.eqb tool "openssl" && String.eqb sub "x509" then x509_out args
      else None
  | _ => None
  end.

(** What a child process does to the local files: [content] is what it
    leaves in its output file, [None] when it leaves it alone. *)
Definition child_effect (cmd : list string) (content : option string)
    (fs : gmap string string) : gmap string string :=
  match out_file cmd, content with
  | Some p, Some c => <[p := c]> fs
  | _, _ => fs
  end.

Section Program.

Variable env : Env.

(** [LOCAL_DIR / name] and its [str] *)
Definition local_path (name : string) : string :=
  LOCAL_DIR env +:+ "/" +:+ name.

Definition LOCAL_BIN : string := local_path "frida-server".

Definition frida_url (ver arch : option string) : string :=
  "https://github.com/frida/frida/releases/download/" +:+ fmt ver
  +:+ "/frida-server-" +:+ fmt ver +:+ "-" +:+ fmt arch +:+ ".xz".

Definition local_xz (ver arch : option string) : string :=
  local_path ("frida-server-" +:+ fmt ver +:+ "-" +:+ fmt arch +:+ ".xz").

Definition check_tool (tool_name : string) : M bool :=
  ask (fun t => which env t tool_name).

(** [subprocess.run(cmd, capture_output=True, text=True, check=check)]:
    the child runs, may write its [-out] file, and with [check] a
    non-zero exit status raises [CalledProcessError]. *)
Definition subprocess_run (cmd : list string) (check : bool)
  : M CompletedProcess :=
  r ← ask (fun t => (respond env t cmd, writes env t cmd));
  emit (Exec cmd r.1) ;;
  set_files (child_effect cmd r.2) ;;
  if check && negb (returncode r.1 =? 0) then
    throw (CalledProcessError cmd r.1)
  else ret r.1.

(** [run_command(cmd, check)], always called with the default
    [capture=True, text=True] *)
Definition run_command (cmd : list string) (check : bool)
  : M CompletedProcess :=
  try_except (subprocess_run cmd check)
    (fun e =>
       match e with
       | CalledProcessError _ _ =>
           print (MsgCommandFailed cmd) ;; throw e
       | _ => throw e
       end).

Definition input : M string :=
  s ← ask (typed env); emit (Input s) ;; ret s.

Definition sleep (seconds : Z) : M unit := emit (Sleep seconds).

(** [Path(p).exists()] *)
Definition exists_ (p : string) : M bool :=
  fs ← get_files;
  ret (bool_decide (is_Some (fs !! p))).

(** [Path(p).unlink()] *)
Definition unlink (p : string) : M unit :=
  fs ← get_files;
  match fs !! p with
  | Some _ => set_files (delete p)
  | None => throw (FileNotFoundError p)
  end.

(** [Path(src).rename(dst)] *)
Definition rename (src dst : string) : M unit :=
  fs ← get_files;
  allowed ← ask (rename_ok env);
  match fs !! src with
  | None => throw (FileNotFoundError src)
  | Some content =>
      if allowed then set_files (fun fs : gmap string string =>
                     <[dst := content]> (delete src fs))
      else throw OSError
  end.

(** [LOCAL_DIR.mkdir(parents=True, exist_ok=True)] *)
Definition mkdir_local_dir : M unit :=
  ok ← ask (mkdir_ok env);
  if ok then ret tt else throw OSError.

(** [urllib.request.urlretrieve(url, dest)]; a [None] argument is a
    [TypeError] in either position for the way the call goes on. *)
Definition urlretrieve (url dest : option string) : M unit :=
  match url, dest with
  | Some u, Some d =>
      r ← ask (fun t => fetch env t u);
      emit (Urlretrieve u d r) ;;
      match r with
      | Fetched body => set_files (insert d body)
      | FetchFailed partial =>
          match partial with
          | Some body => set_files (insert d body)
          | None => ret tt
          end ;;
          throw URLError
      end
  | _, _ => throw TypeError
  end.

(** The [with lzma.open(LOCAL_XZ, 'rb')] block of [setup_frida_server]:
    the archive is opened, the target is opened for writing (and so
    emptied), then what the archive expands to is written.  File modes
    are not part of the model, so the [chmod] that follows has no
    counterpart. *)
Definition extract_xz (src : option string) : M unit :=
  match src with
  | None => throw TypeError
  | Some p =>
      fs ← get_files;
      match fs !! p with
      | None => throw (FileNotFoundError p)
      | Some packed =>
          set_files (insert LOCAL_BIN "") ;;
          match unxz env packed with
          | None => throw LZMAError
          | Some data => set_files (insert LOCAL_BIN data)
          end
      end
  end.

(** *** Startup validation *)

Definition validate_frida_version (version : string) : M bool :=
  if negb (Regex.match_anchored version_pattern version) then
    print (MsgBadVersion version) ;; ret false
  else ret true.

Definition validate_frida_arch (arch : string) : M bool :=
  if negb (str_in arch valid_archs) then
    print (MsgBadArch arch) ;; ret false
  else ret true.

(** *** Module 1: push the Burp certificate *)

Definition temp_pem : string := "temp.pem".

Definition der_command (cert : string) : list string :=
  ["openssl"; "x509"; "-inform"; "DER"; "-in"; cert; "-out"; temp_pem].

Definition pem_command (cert : string) : list string :=
  ["openssl"; "x509"; "-inform"; "PEM"; "-in"; cert; "-out"; temp_pem].

Definition hash_command : list string :=
  ["openssl"; "x509"; "-inform"; "PEM"; "-subject_hash_old"; "-in"; temp_pem].

(** [result.stdout.strip().split('\n')[0]] followed by [.0] *)
Definition hash_name_of (r : CompletedProcess) : string :=
  match PyStr.split_on "010" (PyStr.strip (stdout r)) with
  | h :: _ => h
  | [] => ""
  end +:+ ".0".

(** The [try] block up to the assignment of [hash_name]. *)
Definition convert_cert (cert : string) : M string :=
  print MsgConverting ;;
  result ← run_command (der_command cert) false;
  (if negb (returncode result =? 0) then
     run_command (pem_command cert) true ;; ret tt
   else ret tt) ;;
  result ← run_command hash_command true;
  ret (hash_name_of result).

(** The [try] block after the assignment of [hash_name]. *)
Definition install_cert (hash_name : string) : M unit :=
  rename temp_pem hash_name ;;
  print MsgRemount ;;
  run_command ["adb"; "root"] false ;;
  sleep 1 ;;
  run_command ["adb"; "remount"] false ;;
  print (MsgPushCert hash_name) ;;
  run_command
    ["adb"; "push"; hash_name; DEVICE_CERT_DIR +:+ "/" +:+ hash_name] true ;;
  print MsgSetPermission ;;
  run_command
    ["adb"; "shell"; "chmod 644 " +:+ DEVICE_CERT_DIR +:+ "/" +:+ hash_name]
    true ;;
  present ← exists_ hash_name;
  (if present then unlink hash_name else ret tt) ;;
  print MsgReboot ;;
  run_command ["adb"; "reboot"] true ;;
  print MsgCertDone.

(** The [except Exception] block: [hash_name] is [None] when the body
    raised before binding it (the test ['hash_name' in locals()]). *)
Definition cleanup_cert (hash_name : option string) (e : exn) : M unit :=
  print (MsgError e) ;;
  for_each (Some temp_pem :: hash_name :: nil)
    (fun f =>
       match f with
       | Some p =>
           present ← exists_ p;
           if present then unlink p else ret tt
       | None => ret tt
       end).

Definition push_burp_cert : M unit :=
  print MsgCertStart ;;
  adb ← check_tool "adb";
  if negb adb then print MsgNoAdb
  else
    openssl ← check_tool "openssl";
    if negb openssl then print MsgNoOpenssl
    else
      cfg ← get_globals;
      match CERT_FILE cfg with
      | None => throw TypeError           (* Path(None) *)
      | Some cert_path =>
          present ← exists_ cert_path;
          if negb present then print MsgNoCertFile
          else
            try_except
              (hash_name ← convert_cert cert_path;
               try_except (install_cert hash_name)
                 (cleanup_cert (Some hash_name)))
              (cleanup_cert None)
      end.

(** *** Module 2: run the Frida server *)

(** The loop of [choose_device] over the listing's lines: a line adds its
    first token when it has a second one and that one is [device]. *)
Definition scan_line (devices : list string) (line : string) : list string :=
  let parts := PyStr.split (PyStr.strip line) in
  match parts !! 1%nat with
  | Some state =>
      if String.eqb state "device" then devices ++ [default "" (head parts)]
      else devices
  | None => devices
  end.

(** [result.stdout.strip().split('\n')[1:]], then the loop *)
Definition parse_devices (out : string) : list string :=
  let lines := tail (PyStr.split_on "010" (PyStr.strip out)) in
  fold_left scan_line lines [].

Fixpoint print_entries (i : nat) (devices : list string) : M unit :=
  match devices with
  | [] => ret tt
  | d :: rest => print (MsgDeviceEntry i d) ;; print_entries (S i) rest
  end.

Definition choose_device : M (list string) :=
  print MsgCheckingDevices ;;
  result ← run_command ["adb"; "devices"] true;
  let devices := parse_devices (stdout result) in
  match devices with
  | [] => print MsgNoDevices ;; ret []
  | _ :: _ =>
      print MsgDevicesFound ;;
      print_entries 1 devices ;;
      print MsgAllDevicesOption ;;
      line ← input;
      let choice := PyStr.strip line in
      if String.eqb choice "0" then ret devices
      else if PyStr.isdigit choice then
        match PyStr.int (int_max_str_digits env) choice with
        | None => throw ValueError
        | Some n =>
            if (1 <=? n) && (n <=? Z.of_nat (length devices)) then
              match devices !! Z.to_nat (n - 1) with
              | Some d => ret [d]
              | None => throw IndexError
              end
            else print MsgInvalidChoice ;; ret []
        end
      else print MsgInvalidChoice ;; ret []
  end.

Definition adb (serial : string) (rest : list string) : list string :=
  "adb" :: "-s" :: serial :: rest.

Definition getprop_command (serial : string) : list string :=
  adb serial ["shell"; "getprop"; "ro.product.cpu.abi"].
Definition push_command (serial : string) : list string :=
  adb serial ["push"; LOCAL_BIN; REMOTE_BIN].
Definition chmod_command (serial : string) : list string :=
  adb serial ["shell"; "chmod 755 '" +:+ REMOTE_BIN +:+ "'"].
Definition su_kill_command (serial : string) : list string :=
  adb serial ["shell"; "su -c 'pkill -f " +:+ REMOTE_BIN +:+ "'"].
Definition kill_command (serial : string) : list string :=
  adb serial ["shell"; "pkill -f " +:+ REMOTE_BIN].
Definition setenforce_command (serial : string) : list string :=
  adb serial ["shell"; "su -c 'setenforce 0'"].
Definition root_command (serial : string) : list string :=
  adb serial ["root"].
Definition su_launch_command (serial : string) : list string :=
  adb serial
    ["shell"; "su -c 'nohup " +:+ REMOTE_BIN +:+ " >/dev/null 2>&1 &'"].
Definition launch_command (serial : string) : list string :=
  adb serial ["shell"; "nohup " +:+ REMOTE_BIN +:+ " >/dev/null 2>&1 &"].
Definition ps_command (serial : string) : list string :=
  adb serial ["shell"; "ps -A | grep -i frida-server"].

(** [detect_device_arch]: the same query made with [subprocess.run] and
    no [check], falling back on the default; nothing in the program calls
    it. *)
Definition detect_device_arch (serial : string) : M string :=
  result ← subprocess_run (getprop_command serial) false;
  if returncode result =? 0 then
    ret (map_abi_to_frida_arch (PyStr.strip (stdout result)))
  else ret "android-arm64".

(** The first branch of [setup_frida_server]: with [auto_detect] the
    globals [FRIDA_ARCH], [FRIDA_URL] and [LOCAL_XZ] are assigned. *)
Definition resolve_arch (auto_detect : bool) (device_abi : string) : M unit :=
  if auto_detect then
    let detected_arch := map_abi_to_frida_arch device_abi in
    print (MsgDetectedArch detected_arch) ;;
    set_globals (fun c =>
      mkConfig (CERT_FILE c) (FRIDA_VER c) (Some detected_arch)
        (Some (frida_url (FRIDA_VER c) (Some detected_arch)))
        (AUTO_DETECT_ARCH c)
        (Some (local_xz (FRIDA_VER c) (Some detected_arch))))
  else
    cfg ← get_globals;
    let expected_keyword :=
      default "" (FRIDA_ARCH cfg ≫= fun a => expected_abi_keywords !! a) in
    if PyStr.nonempty expected_keyword
       && negb (PyStr.contains expected_keyword device_abi)
    then print (MsgArchMismatch device_abi)
    else ret tt.

(** From [Push to device] to the end of [setup_frida_server]. *)
Definition push_and_launch (serial : string) : M unit :=
  print MsgPushing ;;
  result ← run_command (push_command serial) false;
  if negb (returncode result =? 0) then print MsgPushFailed
  else
    run_command (chmod_command serial) false ;;
    print MsgKillOld ;;
    run_command (su_kill_command serial) false ;;
    run_command (kill_command serial) false ;;
    print MsgSelinux ;;
    run_command (setenforce_command serial) false ;;
    run_command (root_command serial) false ;;
    print MsgLaunching ;;
    result ← run_command (su_launch_command serial) false;
    (if negb (returncode result =? 0) then
       print MsgSuFailed ;;
       run_command (launch_command serial) false ;; ret tt
     else ret tt) ;;
    sleep 1 ;;
    print (MsgCheckStatus serial) ;;
    result ← run_command (ps_command serial) false;
    if negb (returncode result =? 0)
       || negb (PyStr.nonempty (PyStr.strip (stdout result)))
    then print MsgNotObserved
    else print (MsgProcesses (PyStr.strip (stdout result))).

Definition setup_frida_server (serial : string) (auto_detect : bool)
  : M unit :=
  print (MsgDeviceHeader serial) ;;
  print MsgCheckAbi ;;
  result ← run_command (getprop_command serial) true;
  let device_abi := PyStr.strip (stdout result) in
  print (MsgAbi device_abi) ;;
  resolve_arch auto_detect device_abi ;;
  cfg ← get_globals;
  print (MsgDownloading (FRIDA_URL cfg)) ;;
  mkdir_local_dir ;;
  downloaded ← try_except
    (urlretrieve (FRIDA_URL cfg) (LOCAL_XZ cfg) ;; ret true)
    (fun e => print (MsgDownloadFailed e) ;; ret false);
  if negb downloaded then ret tt
  else
    print MsgExtracting ;;
    extracted ← try_except
      (extract_xz (LOCAL_XZ cfg) ;; ret true)
      (fun e => print (MsgExtractFailed e) ;; ret false);
    if negb extracted then ret tt
    else push_and_launch serial.

Definition run_frida_server : M unit :=
  print MsgFridaStart ;;
  found ← check_tool "adb";
  if negb found then print MsgNoAdb
  else
    selected ← choose_device;
    match selected with
    | [] => ret tt
    | _ :: _ =>
        for_each selected (fun serial =>
          cfg ← get_globals;
          setup_frida_server serial (AUTO_DETECT_ARCH cfg) ;;
          print (MsgTryFridaPs serial) ;;
          frida_ps ← check_tool "frida-ps";
          if frida_ps then
            run_command ["frida-ps"; "-D"; serial] false ;; ret tt
          else print MsgNoFridaPs) ;;
        print MsgAllDone
    end.

(** *** Main *)

(** Module 3 only reports on, and at the operator's wish installs, the
    prerequisite tools; it is left open here. *)
Variable install_tools : M unit.

Definition show_menu : M string :=
  print MsgMenu ;;
  line ← input;
  ret (PyStr.strip line).

(** [sys.exit(status)] *)
Definition sys_exit {A} (status : Z) : M A := throw (SystemExit status).

(** Truth value of an optional string: [None] and [''] are false. *)
Definition truthy (o : option string) : bool :=
  match o with
  | Some s => PyStr.nonempty s
  | None => false
  end.

(** [main] up to the menu: the arguments are validated and the globals
    are assigned from them. *)
Definition configure (args : Args) : M unit :=
  ok ← validate_frida_version (frida_version args);
  (if negb ok then sys_exit 1 else ret tt) ;;
  set_globals (fun c =>
    mkConfig (Some (cert_file args)) (Some (frida_version args))
      (FRIDA_ARCH c) (FRIDA_URL c) (auto_detect_arch args) (LOCAL_XZ c)) ;;
  (if truthy (frida_arch args) then
     ok ← validate_frida_arch (fmt (frida_arch args));
     (if negb ok then sys_exit 1 else ret tt) ;;
     set_globals (fun c =>
       mkConfig (CERT_FILE c) (FRIDA_VER c) (frida_arch args)
         (FRIDA_URL c) (AUTO_DETECT_ARCH c) (LOCAL_XZ c))
   else
     set_globals (fun c =>
       mkConfig (CERT_FILE c) (FRIDA_VER c) (Some "android-arm64")
         (FRIDA_URL c)
         (if negb (auto_detect_arch args) then true
          else AUTO_DETECT_ARCH c)
         (LOCAL_XZ c))) ;;
  set_globals (fun c =>
    mkConfig (CERT_FILE c) (FRIDA_VER c) (FRIDA_ARCH c)
      (Some (frida_url (FRIDA_VER c) (FRIDA_ARCH c)))
      (AUTO_DETECT_ARCH c)
      (Some (local_xz (FRIDA_VER c) (FRIDA_ARCH c)))) ;;
  cfg ← get_globals;
  print (MsgBanner cfg).

(** The [try] block of [main]: one pass through the menu. *)
Definition dispatch : M unit :=
  try_except
    (choice ← show_menu;
     if String.eqb choice "1" then push_burp_cert
     else if String.eqb choice "2" then run_frida_server
     else if String.eqb choice "3" then install_tools
     else if String.eqb choice "4" then print MsgBye
     else print MsgChoose1to4)
    (fun e => print (MsgError e)).

Definition main (args : Args) : M unit :=
  configure args ;; dispatch.

(** The globals as the module's top level leaves them. *)
Definition initial_globals : Config :=
  mkConfig None None None None false None.

Definition initial_state (fs : gmap string string) : State :=
  mkState initial_globals fs 0 [].

(** The [if __name__ == "__main__"] block: the exit status of the
    process and the state it ends in.  [sys.exit] passes through
    [except Exception]; any other exception is printed and the status
    stays 0. *)
Definition script (args : Args) (fs : gmap string string) : Z * State :=
  match main args (initial_state fs) with
  | (Ret _, st) => (0, st)
  | (Raise (SystemExit status), st) => (status, st)
  | (Raise e, st) =>
      (0, mkState (globals st) (files st) (now st)
            (log st ++ [Print (MsgError e)]))
  end.

End Program.

(** ** Notions used to state the properties *)

(** The words of a regular expression. *)
Inductive Matches : Regex.re -> string -> Prop :=
| MEps : Matches Regex.Eps ""
| MLit c : Matches (Regex.Lit c) (String c "")
| MDigit c : PyStr.isdecimal c = true -> Matches Regex.Digit (String c "")
| MCat r s u v : Matches r u -> Matches s v -> Matches (Regex.Cat r s) (u +:+ v)
| MAltL r s u : Matches r u -> Matches (Regex.Alt r s) u
| MAltR r s u : Matches s u -> Matches (Regex.Alt r s) u
| MStarNil r : Matches (Regex.Star r) ""
| MStarApp r u v :
    Matches r u -> Matches (Regex.Star r) v -> Matches (Regex.Star r) (u +:+ v).

(** A non-empty run of decimal digits. *)
Definition digits (s : string) : Prop :=
  s <> "" /\ PyStr.forallb_str PyStr.isdecimal s = true.

(** The version format as the documentation words it: [x.y.z], three runs
    of digits separated by dots, and nothing else. *)
Definition is_semver (s : string) : Prop :=
  exists x y z, digits x /\ digits y /\ digits z /\
                s = x +:+ "." +:+ y +:+ "." +:+ z.

(** The device listing as the documentation words it: of the lines after
    the header, those whose second token is [device], each giving its
    first token. *)
Definition state_token (line : string) : option string :=
  PyStr.split (PyStr.strip line) !! 1%nat.

Definition serial_token (line : string) : string :=
  default "" (head (PyStr.split (PyStr.strip line))).

Definition listed_devices (out : string) : list string :=
  map serial_token
    (filter (fun line => state_token line = Some "device")
       (tail (PyStr.split_on "010" (PyStr.strip out)))).

(** How often the artifact host was asked. *)
Definition is_download (e : event) : bool :=
  match e with Urlretrieve _ _ _ => true | _ => false end.

Definition downloads (l : list event) : nat :=
  length (List.filter is_download l).

(** The commands run, in order. *)
Fixpoint commands (l : list event) : list (list string) :=
  match l with
  | [] => []
  | Exec cmd _ :: l' => cmd :: commands l'
  | _ :: l' => commands l'
  end.

(** [wp m Q st]: running [m] from [st] ends in a result and a state that
    satisfy [Q].  The model is total, so this is a statement about the one
    run there is. *)
Definition wp {A} (m : M A) (Q : result A -> State -> Prop) (st : State)
  : Prop :=
  Q (m st).1 (m st).2.

(** What a run from [st] to [st'] added to the log. *)
Definition new_events (st st' : State) : list event :=
  drop (length (log st)) (log st').

(** The menu was shown. *)
Definition menu_shown (l : list event) : Prop := In (Print MsgMenu) l.

(** The URL and the archive path are those of the version and the
    architecture in force, as [main] and [setup_frida_server] assign them. *)
Definition configured (env : Env) (c : Config) : Prop :=
  FRIDA_URL c = Some (frida_url (FRIDA_VER c) (FRIDA_ARCH c)) /\
  LOCAL_XZ c = Some (local_xz env (FRIDA_VER c) (FRIDA_ARCH c)).

(** Where [setup_frida_server] keeps the artifact of a version and an
    architecture: the archive, and what it expands to. *)
Definition cache_paths (env : Env) (ver arch : string) : string * string :=
  (local_xz env (Some ver) (Some arch), LOCAL_BIN env).

(** ** Scenarios

    Concrete surroundings on which the program is run below: a workstation
    with an emulator and a phone attached and a third device offline. *)

Module Scenario.

Definition nl : string := String "010" "".
Definition tab : string := String "009" "".

Definition completed (rc : Z) (out : string) : CompletedProcess :=
  mkCompleted rc out "".

Definition listing : string :=
  "List of devices attached" +:+ nl
  +:+ "emulator-5554" +:+ tab +:+ "device" +:+ nl
  +:+ "R58N" +:+ tab +:+ "offline" +:+ nl
  +:+ "ZX1G22" +:+ tab +:+ "device" +:+ nl.

Definition abi_of (serial : string) : string :=
  if String.eqb serial "emulator-5554" then "x86_64" else "arm64-v8a".

(** Every command succeeds, except that the certificate at hand is PEM and
    so its conversion from DER fails. *)
Definition respond_ok (t : nat) (cmd : list string) : CompletedProcess :=
  match cmd with
  | ["adb"; "devices"] => completed 0 listing
  | ["adb"; "-s"; serial; "shell"; "getprop"; _] =>
      completed 0 (abi_of serial +:+ nl)
  | ["openssl"; "x509"; "-inform"; "DER"; _; _; _; _] => completed 1 ""
  | ["openssl"; "x509"; "-inform"; "PEM"; "-subject_hash_old"; _; _] =>
      completed 0 ("9a5ba575" +:+ nl)
  | _ => completed 0 ""
  end.

(** As [respond_ok], but the commands chosen by [fails] exit with 1. *)
Definition respond_but (fails : list string -> bool)
    (t : nat) (cmd : list string) : CompletedProcess :=
  if fails cmd then completed 1 "" else respond_ok t cmd.

Definition writes_ok (t : nat) (cmd : list string) : option string :=
  match cmd with
  | ["openssl"; "x509"; "-inform"; "PEM"; "-in"; _; "-out"; _] =>
      Some "-----BEGIN CERTIFICATE-----"
  | _ => None
  end.

(** The operator's answers: the first at the menu, the second at the
    device prompt. *)
Definition typed_at (menu device : string) (t : nat) : string :=
  match t with O => menu | _ => device end.

(** The artifact host answers every request but those for a URL that
    holds [missing]. *)
Definition fetch_but (missing : string) (t : nat) (url : string)
  : fetch_result :=
  if PyStr.nonempty missing && PyStr.contains missing url
  then FetchFailed None
  else Fetched ("xz of " +:+ url).

Definition workstation_with
    (respond : nat -> list string -> CompletedProcess)
    (fetch : nat -> string -> fetch_result)
    (menu device : string) : Env :=
  mkEnv "/home/op/tmp" (fun _ _ => true) respond writes_ok
    (typed_at menu device) fetch
    (fun packed => Some ("unpacked " +:+ packed))
    (fun _ => true) (fun _ => true) 4300.

Definition workstation (respond : nat -> list string -> CompletedProcess)
    (menu device : string) : Env :=
  workstation_with respond (fetch_but "") menu device.

Definition default_args : Args := mkArgs "17.5.2" None "./burp.cer" false.

(** The globals as [main] leaves them for [default_args]. *)
Definition default_config : Config :=
  mkConfig (Some "./burp.cer") (Some "17.5.2") (Some "android-arm64")
    (Some ("https://github.com/frida/frida/releases/download/17.5.2/"
           +:+ "frida-server-17.5.2-android-arm64.xz"))
    true
    (Some "/home/op/tmp/frida-server-17.5.2-android-arm64.xz").

(** The local files: the certificate, and the artifact of 17.5.2 for
    android-arm64 already fetched and unpacked. *)
Definition disk : gmap string string :=
  <["./burp.cer" := "-----BEGIN CERTIFICATE-----"]>
  (<["/home/op/tmp/frida-server-17.5.2-android-arm64.xz" := "old archive"]>
  (<["/home/op/tmp/frida-server" := "old binary"]> ∅)).

Definition ready : State := mkState default_config disk 0 [].

(** The superscript digit two, as the operator may type it. *)
Definition superscript_two : string := String "178" "".

(** No [su] and no root on the device: killing the old server, relaxing
    SELinux and restarting [adbd] as root all fail. *)
Definition unrooted (cmd : list string) : bool :=
  match cmd with
  | ["adb"; "-s"; _; "root"] => true
  | ["adb"; "-s"; _; "shell"; c] =>
      PyStr.prefix "su -c" c || PyStr.prefix "pkill" c
  | _ => false
  end.

(** The emulator does not answer the ABI query. *)
Definition emulator_silent (cmd : list string) : bool :=
  match cmd with
  | ["adb"; "-s"; "emulator-5554"; "shell"; "getprop"; _] => true
  | _ => false
  end.

End Scenario.

(** ** Further notions used to state the properties *)

(** The globals are coherent and name one of the four architectures. *)
Definition valid_config (env : Env) (c : Config) : Prop :=
  configured env c /\
  exists arch, FRIDA_ARCH c = Some arch /\ str_in arch valid_archs = true.

(** The devices a deployment was started for, in order. *)
Fixpoint deployed (l : list event) : list string :=
  match l with
  | [] => []
  | Print (MsgDeviceHeader serial) :: l' => serial :: deployed l'
  | _ :: l' => deployed l'
  end.

(** What the operator was asked, in order. *)
Fixpoint answers (l : list event) : list string :=
  match l with
  | [] => []
  | Input a :: l' => a :: answers l'
  | _ :: l' => answers l'
  end.

(** The command addresses the device [serial]. *)
Definition targets (serial : string) (cmd : list string) : Prop :=
  (exists rest, cmd = adb serial rest) \/ cmd = ["frida-ps"; "-D"; serial].

(** The result is not the end of the process. *)
Definition not_exit {A} (res : result A) : Prop :=
  forall status, res <> Raise (SystemExit status).

(** The arguments pass the validation at startup. *)
Definition valid_args (args : Args) : bool :=
  Regex.match_anchored version_pattern (frida_version args)
  && (negb (truthy (frida_arch args))
      || str_in (fmt (frida_arch args)) valid_archs).

(** A token: not empty and free of whitespace. *)
Definition is_token (w : string) : Prop :=
  w <> "" /\ PyStr.forallb_str (fun c => negb (PyStr.isspace c)) w = true.

(** What [print_entries i devices] prints. *)
Fixpoint entries (i : nat) (devices : list string) : list event :=
  match devices with
  | [] => []
  | d :: rest => Print (MsgDeviceEntry i d) :: entries (S i) rest
  end.

(** The body of the loop of [run_frida_server]. *)
Definition loop_body (env : Env) (serial : string) : M unit :=
  cfg ← get_globals;
  setup_frida_server env serial (AUTO_DETECT_ARCH cfg) ;;
  print (MsgTryFridaPs serial) ;;
  frida_ps ← check_tool env "frida-ps";
  if frida_ps then
    run_command env ["frida-ps"; "-D"; serial] false ;; ret tt
  else print MsgNoFridaPs.

(** A workstation on which the tools of [missing] are not installed. *)
Definition without_tools (missing : list string) (env : Env) : Env :=
  mkEnv (LOCAL_DIR env)
    (fun t tool => negb (str_in tool missing) && which env t tool)
    (respond env) (writes env) (typed env) (fetch env) (unxz env)
    (mkdir_ok env) (rename_ok env) (int_max_str_digits env).

(** ** Module 3: the prerequisite tools

    The third module, which [dispatch] takes as given, on its own.  It
    prints lines of its own, so it runs in a monad [T] that keeps, beside
    the state of [M], a transcript of what was printed and done. *)

Module PyText.

(** [c.lower()] on the code points 0..255: the capital letters are
    65..90, 192..214 and 216..222, each 32 below its small letter. *)
Definition lower_char (c : ascii) : ascii :=
  if PyStr.in_range 65 90 c || PyStr.in_range 192 214 c
     || PyStr.in_range 216 222 c
  then ascii_of_N (PyStr.code c + 32) else c.

(** [s.lower()] *)
Fixpoint lower (s : string) : string :=
  match s with
  | EmptyString => EmptyString
  | String c s' => String (lower_char c) (lower s')
  end.

Fixpoint lstrip_char (q : ascii) (s : string) : string :=
  match s with
  | EmptyString => EmptyString
  | String c s' => if Ascii.eqb c q then lstrip_char q s' else s
  end.

(** [s.strip(q)] for a one-character [q] *)
Definition strip_char (q : ascii) (s : string) : string :=
  PyStr.rev (lstrip_char q (PyStr.rev (lstrip_char q s))).

(** What a file opened in text mode gives for its content: a carriage
    return, alone or before a line feed, reads as a line feed. *)
Fixpoint universal_newlines (s : string) : string :=
  match s with
  | EmptyString => EmptyString
  | String c s' =>
      if Ascii.eqb c "013" then
        match s' with
        | String c' s'' =>
            if Ascii.eqb c' "010" then String "010" (universal_newlines s'')
            else String "010" (universal_newlines s')
        | EmptyString => String "010" EmptyString
        end
      else String c (universal_newlines s')
  end.

(** [for line in f]: the lines, each with the line feed that ends it. *)
Fixpoint readlines (s : string) : list string :=
  match s with
  | EmptyString => []
  | String c s' =>
      if Ascii.eqb c "010" then String c EmptyString :: readlines s'
      else match readlines s' with
           | l :: ls => String c l :: ls
           | [] => [String c EmptyString]
           end
  end.

(** [sep.join(l)] *)
Fixpoint join (sep : string) (l : list string) : string :=
  match l with
  | [] => EmptyString
  | [w] => w
  | w :: ws => w +:+ sep +:+ join sep ws
  end.

End PyText.

(** What module 3 prints, by occasion; a line that shows a command or a
    link carries its text. *)
Inductive tool_message : Type :=
| MsgToolsStart
| MsgOsType (os_type : string)           (* printed with [end=""] *)
| MsgOsName (os_name : string) | MsgEndOfLine
| MsgToolStatus | MsgToolState (tool : string) (installed : bool)
| MsgAllInstalled | MsgRule
| MsgCheckManagers | MsgFoundManagers (names : string)
| MsgInstallCommands | MsgUse (name : string) | MsgCommand (line : string)
| MsgAskInstall
| MsgInstalling (package : string) | MsgUpdating
| MsgInstalled | MsgInstalledRestart
| MsgNoManager | MsgInstallByHand
| MsgManualAdb | MsgManualOpenssl | MsgLink (url : string)
| MsgCheckBrew | MsgFoundBrew | MsgNoBrew | MsgInstallBrewFirst | MsgThenRun
| MsgCheckDistro (os_name : string) | MsgFoundLinuxManager (name : string)
| MsgUnknownDistro (os_name : string) | MsgUseDistroManager
| MsgAdbPackages | MsgOpensslPackage
| MsgUnknownOs (os_type : string).

#[global] Instance tool_message_eq_dec : EqDecision tool_message.
Proof. solve_decision. Defined.

(** What module 3 does, in order: what it prints, and what it does to
    the outside through [M]. *)
Inductive tool_event : Type :=
| Said (m : tool_message)
| Did (e : event).

#[global] Instance tool_event_eq_dec : EqDecision tool_event.
Proof. solve_decision. Defined.

Record ToolState : Type := mkToolState {
  host : State;
  transcript : list tool_event
}.

Definition T (A : Type) : Type := ToolState -> result A * ToolState.

Definition retT {A} (a : A) : T A := fun ts => (Ret a, ts).

Definition bindT {A B} (m : T A) (f : A -> T B) : T B := fun ts =>
  match m ts with
  | (Ret a, ts') => f a ts'
  | (Raise e, ts') => (Raise e, ts')
  end.

Declare Scope T_scope.
Delimit Scope T_scope with T.
Bind Scope T_scope with T.
Notation "x ← y ; z" := (bindT y (fun x => z))
  (at level 20, y at level 100, z at level 200, only parsing) : T_scope.
Notation "x ;; z" := (bindT x (fun _ => z))
  (at level 100, z at level 200, only parsing, right associativity) : T_scope.

(** A computation of [M], run on the host state; what it adds to the log
    is added to the transcript. *)
Definition lift {A} (m : M A) : T A := fun ts =>
  let r := m (host ts) in
  (r.1, mkToolState r.2
          (transcript ts ++ map Did (new_events (host ts) r.2))).

Definition say (m : tool_message) : T unit := fun ts =>
  (Ret tt, mkToolState (host ts) (transcript ts ++ [Said m])).

(** [for x in l: body x] *)
Fixpoint for_eachT {A} (l : list A) (body : A -> T unit) : T unit :=
  match l with
  | [] => retT tt
  | x :: l' => bindT (body x) (fun _ => for_eachT l' body)
  end.

(** [if not present: body] *)
Definition unless (present : bool) (body : T unit) : T unit :=
  if present then retT tt else body.

(** Module 3 seen from [M]: the host state it ends in, the lines it
    printed left out. *)
Definition as_module (m : T unit) : M unit := fun st =>
  let r := m (mkToolState st []) in (r.1, host r.2).

Section Tools.

Variable env : Env.

(** [platform.system()] *)
Variable system : string.

Definition os_release : string := "/etc/os-release".

(** [try: body / except: handler], which catches whatever is raised. *)
Definition try_bare {A} (body : M A) (handler : M A) : M A := fun st =>
  match body st with
  | (Ret a, st') => (Ret a, st')
  | (Raise _, st') => handler st'
  end.

(** The loop of [detect_os] over the lines of the file: the name that
    the first line starting with [ID=] gives; [''] when there is none. *)
Fixpoint scan_id (lines : list string) : M string :=
  match lines with
  | [] => ret ""
  | line :: rest =>
      if PyStr.prefix "ID=" line then
        match PyStr.split_on "=" line !! 1%nat with
        | Some value => ret (PyText.strip_char "034" (PyStr.strip value))
        | None => throw IndexError
        end
      else scan_id rest
  end.

(** [open(path)] read to its end, in text mode. *)
Definition open_text (path : string) : M string :=
  fs ← get_files;
  match fs !! path with
  | Some content => ret (PyText.universal_newlines content)
  | None => throw (FileNotFoundError path)
  end.

Definition detect_os : M (string * string) :=
  let os_type := system in
  if String.eqb os_type "Linux" then
    os_name ← try_bare
      (text ← open_text os_release; scan_id (PyText.readlines text))
      (ret "unknown");
    ret (os_type, os_name)
  else ret (os_type, "").

Definition check_package_manager (manager : string) : M bool :=
  check_tool env manager.

(** The [managers] dictionary of the Windows branch, in its order. *)
Definition managers : list (string * string) :=
  [("choco", "Chocolatey"); ("scoop", "Scoop"); ("winget", "winget")].

(** [{cmd: name for cmd, name in l.items() if check_package_manager(cmd)}] *)
Fixpoint available (l : list (string * string)) : T (list (string * string)) :=
  match l with
  | [] => retT []
  | (cmd, name) :: rest =>
      bindT (lift (check_package_manager cmd)) (fun found =>
      bindT (available rest) (fun others =>
      retT (if found then (cmd, name) :: others else others)))
  end.

(** One installation: the announcement, then the command, whose outcome
    is not looked at. *)
Definition install (package : string) (cmd : list string) : T unit :=
  (say (MsgInstalling package) ;;
   lift (run_command env cmd false) ;;
   retT tt)%T.

(** The question put before installing, and whether the answer is [y]. *)
Definition confirm : T bool :=
  (say MsgRule ;;
   say MsgAskInstall ;;
   line ← lift (input env);
   retT (String.eqb (PyText.lower (PyStr.strip line)) "y"))%T.

Definition windows_commands (adb_installed openssl_installed : bool)
    (manager : string * string) : T unit :=
  (if String.eqb manager.1 "choco" then
     say (MsgUse manager.2) ;;
     unless adb_installed (say (MsgCommand "choco install adb")) ;;
     unless openssl_installed (say (MsgCommand "choco install openssl"))
   else if String.eqb manager.1 "scoop" then
     say (MsgUse manager.2) ;;
     unless adb_installed (say (MsgCommand "scoop install adb")) ;;
     unless openssl_installed (say (MsgCommand "scoop install openssl"))
   else if String.eqb manager.1 "winget" then
     say (MsgUse manager.2) ;;
     unless adb_installed
       (say (MsgCommand
               "winget install Google.AndroidStudio.PlatformTools")) ;;
     unless openssl_installed
       (say (MsgCommand "winget install OpenSSL.Light"))
   else retT tt)%T.

Definition windows_install (adb_installed openssl_installed : bool)
    (cmd : string) : T unit :=
  (if String.eqb cmd "choco" then
     unless adb_installed
       (install "adb" ["choco"; "install"; "adb"; "-y"]) ;;
     unless openssl_installed
       (install "openssl" ["choco"; "install"; "openssl"; "-y"])
   else if String.eqb cmd "scoop" then
     unless adb_installed (install "adb" ["scoop"; "install"; "adb"]) ;;
     unless openssl_installed
       (install "openssl" ["scoop"; "install"; "openssl"])
   else if String.eqb cmd "winget" then
     unless adb_installed
       (install "adb"
          ["winget"; "install"; "Google.AndroidStudio.PlatformTools"]) ;;
     unless openssl_installed
       (install "openssl" ["winget"; "install"; "OpenSSL.Light"])
   else retT tt)%T.

Definition install_windows (adb_installed openssl_installed : bool)
  : T unit :=
  (say MsgCheckManagers ;;
   available_managers ← available managers;
   match available_managers with
   | first :: _ =>
       say (MsgFoundManagers
              (PyText.join ", " (map snd available_managers))) ;;
       say MsgInstallCommands ;;
       for_eachT available_managers
         (windows_commands adb_installed openssl_installed) ;;
       yes ← confirm;
       if yes then
         windows_install adb_installed openssl_installed first.1 ;;
         say MsgInstalledRestart
       else retT tt
   | [] =>
       say MsgNoManager ;;
       say MsgInstallByHand ;;
       unless adb_installed
         (say MsgManualAdb ;;
          say (MsgLink
                 "https://developer.android.com/tools/releases/platform-tools")) ;;
       unless openssl_installed
         (say MsgManualOpenssl ;;
          say (MsgLink "https://slproweb.com/products/Win32OpenSSL.html"))
   end)%T.

Definition brew_script : string :=
  "/bin/bash -c " +:+ String "034" "$(curl -fsSL " +:+
  "https://raw.githubusercontent.com/Homebrew/install/HEAD/install.sh)"
  +:+ String "034" "".

Definition install_darwin (adb_installed openssl_installed : bool)
  : T unit :=
  (say MsgCheckBrew ;;
   brew ← lift (check_package_manager "brew");
   if brew then
     say MsgFoundBrew ;;
     say MsgInstallCommands ;;
     unless adb_installed
       (say (MsgCommand "brew install android-platform-tools")) ;;
     unless openssl_installed (say (MsgCommand "brew install openssl")) ;;
     yes ← confirm;
     if yes then
       unless adb_installed
         (install "android-platform-tools"
            ["brew"; "install"; "android-platform-tools"]) ;;
       unless openssl_installed
         (install "openssl" ["brew"; "install"; "openssl"]) ;;
       say MsgInstalled
     else retT tt
   else
     say MsgNoBrew ;;
     say MsgInstallBrewFirst ;;
     say (MsgCommand brew_script) ;;
     say MsgThenRun ;;
     unless adb_installed
       (say (MsgCommand "brew install android-platform-tools")) ;;
     unless openssl_installed (say (MsgCommand "brew install openssl")))%T.

Definition install_linux (os_name : string)
    (adb_installed openssl_installed : bool) : T unit :=
  (say (MsgCheckDistro os_name) ;;
   if str_in os_name ["ubuntu"; "debian"] then
     say (MsgFoundLinuxManager "APT") ;;
     say MsgInstallCommands ;;
     unless adb_installed
       (say (MsgCommand "sudo apt-get update") ;;
        say (MsgCommand "sudo apt-get install -y adb")) ;;
     unless openssl_installed
       (say (MsgCommand "sudo apt-get install -y openssl")) ;;
     yes ← confirm;
     if yes then
       say MsgUpdating ;;
       lift (run_command env ["sudo"; "apt-get"; "update"] false) ;;
       unless adb_installed
         (install "adb" ["sudo"; "apt-get"; "install"; "-y"; "adb"]) ;;
       unless openssl_installed
         (install "openssl"
            ["sudo"; "apt-get"; "install"; "-y"; "openssl"]) ;;
       say MsgInstalled
     else retT tt
   else if str_in os_name ["fedora"; "rhel"; "centos"] then
     say (MsgFoundLinuxManager "YUM/DNF") ;;
     say MsgInstallCommands ;;
     unless adb_installed
       (say (MsgCommand "sudo yum install -y android-tools")) ;;
     unless openssl_installed
       (say (MsgCommand "sudo yum install -y openssl")) ;;
     yes ← confirm;
     if yes then
       unless adb_installed
         (install "android-tools"
            ["sudo"; "yum"; "install"; "-y"; "android-tools"]) ;;
       unless openssl_installed
         (install "openssl" ["sudo"; "yum"; "install"; "-y"; "openssl"]) ;;
       say MsgInstalled
     else retT tt
   else if str_in os_name ["arch"; "manjaro"] then
     say (MsgFoundLinuxManager "Pacman") ;;
     say MsgInstallCommands ;;
     unless adb_installed
       (say (MsgCommand "sudo pacman -S --noconfirm android-tools")) ;;
     unless openssl_installed
       (say (MsgCommand "sudo pacman -S --noconfirm openssl")) ;;
     yes ← confirm;
     if yes then
       unless adb_installed
         (install "android-tools"
            ["sudo"; "pacman"; "-S"; "--noconfirm"; "android-tools"]) ;;
       unless openssl_installed
         (install "openssl"
            ["sudo"; "pacman"; "-S"; "--noconfirm"; "openssl"]) ;;
       say MsgInstalled
     else retT tt
   else
     say (MsgUnknownDistro os_name) ;;
     say MsgUseDistroManager ;;
     unless adb_installed (say MsgAdbPackages) ;;
     unless openssl_installed (say MsgOpensslPackage))%T.

Definition install_tools : T unit :=
  (say MsgToolsStart ;;
   os ← lift detect_os;
   say (MsgOsType os.1) ;;
   (if PyStr.nonempty os.2 then say (MsgOsName os.2)
    else say MsgEndOfLine) ;;
   say MsgToolStatus ;;
   adb_installed ← lift (check_tool env "adb");
   openssl_installed ← lift (check_tool env "openssl");
   say (MsgToolState "adb" adb_installed) ;;
   say (MsgToolState "openssl" openssl_installed) ;;
   if adb_installed && openssl_installed then say MsgAllInstalled
   else
     say MsgRule ;;
     if String.eqb os.1 "Windows" then
       install_windows adb_installed openssl_installed
     else if String.eqb os.1 "Darwin" then
       install_darwin adb_installed openssl_installed
     else if String.eqb os.1 "Linux" then
       install_linux os.2 adb_installed openssl_installed
     else say (MsgUnknownOs os.1))%T.

End Tools.

(** *** Notions used to state the properties of module 3 *)

(** [wpT m Q ts]: the run of [m] from [ts] ends in a result and a state
    that satisfy [Q]. *)
Definition wpT {A} (m : T A) (Q : result A -> ToolState -> Prop)
    (ts : ToolState) : Prop :=
  Q (m ts).1 (m ts).2.

(** What a run added to the transcript. *)
Definition new_lines (ts ts' : ToolState) : list tool_event :=
  drop (length (transcript ts)) (transcript ts').

(** The lines printed, in order. *)
Fixpoint said (l : list tool_event) : list tool_message :=
  match l with
  | [] => []
  | Said m :: l' => m :: said l'
  | Did _ :: l' => said l'
  end.

(** What was done through [M], in order. *)
Fixpoint done (l : list tool_event) : list event :=
  match l with
  | [] => []
  | Did e :: l' => e :: done l'
  | Said _ :: l' => done l'
  end.

(** The operator agrees: the answer is [y] or [Y], blanks around it
    aside. *)
Definition agrees (answer : string) : bool :=
  String.eqb (PyStr.strip answer) "y" || String.eqb (PyStr.strip answer) "Y".

(** The names under which the package managers offer [adb], and
    [openssl]. *)
Definition adb_packages : list string :=
  ["adb"; "android-platform-tools"; "android-tools";
   "Google.AndroidStudio.PlatformTools"].
Definition openssl_packages : list string := ["openssl"; "OpenSSL.Light"].

(** [cmd] mentions one of [packages]. *)
Definition mentions (packages : list string) (cmd : list string) : bool :=
  existsb (fun w => str_in w packages) cmd.

(** A text file of the given lines, each ended by a line feed. *)
Fixpoint text_of (lines : list string) : string :=
  match lines with
  | [] => ""
  | l :: ls => l +:+ String "010" (text_of ls)
  end.

(** A line of an [os-release] file that sets [ID] to [name], bare or in
    double quotes. *)
Definition id_line (quoted : bool) (name : string) : string :=
  let q := if quoted then String "034" "" else "" in
  "ID=" +:+ q +:+ name +:+ q.

(** A character that can stand in a distribution's [ID]: no blank, no
    quote, no equals sign. *)
Definition plain (c : ascii) : bool :=
  negb (PyStr.isspace c) && negb (Ascii.eqb c "034")
  && negb (Ascii.eqb c "=").

(** A line that holds no line break and does not set [ID]. *)
Definition other_line (l : string) : bool :=
  PyStr.forallb_str
    (fun c => negb (Ascii.eqb c "013") && negb (Ascii.eqb c "010")) l
  && negb (PyStr.prefix "ID=" l).

(** * Properties *)

(** ** Strings *)

Module StrFacts.

Lemma app_cons a s t : String a s +:+ t = String a (s +:+ t).
Proof. reflexivity. Qed.

Lemma app_nil_l s : "" +:+ s = s.
Proof. reflexivity. Qed.

Lemma app_nil_r s : s +:+ "" = s.
Proof. induction s as [|a s IH]; [reflexivity|]. now rewrite app_cons, IH. Qed.

Lemma app_assoc s t u : (s +:+ t) +:+ u = s +:+ (t +:+ u).
Proof.
  induction s as [|a s IH]; [reflexivity|]. now rewrite !app_cons, IH.
Qed.

Lemma app_eq_nil s t : s +:+ t = "" -> s = "" /\ t = "".
Proof. destruct s; [now rewrite app_nil_l | rewrite app_cons; discriminate]. Qed.

Lemma forallb_app p s t :
  PyStr.forallb_str p (s +:+ t)
  = PyStr.forallb_str p s && PyStr.forallb_str p t.
Proof.
  induction s as [|a s IH]; [reflexivity|].
  rewrite app_cons. simpl. now rewrite IH, andb_assoc.
Qed.

(** A separator that occurs on neither left side splits uniquely. *)
Lemma split_unique c s1 t1 s2 t2 :
  PyStr.forallb_str (fun a => negb (Ascii.eqb a c)) s1 = true ->
  PyStr.forallb_str (fun a => negb (Ascii.eqb a c)) s2 = true ->
  s1 +:+ String c t1 = s2 +:+ String c t2 ->
  s1 = s2 /\ t1 = t2.
Proof.
  revert s2. induction s1 as [|a s1 IH]; intros [|b s2] H1 H2 E;
    rewrite ?app_cons, ?app_nil_l in E; simpl in H1, H2.
  - now inversion E.
  - inversion E; subst. rewrite Ascii.eqb_refl in H2. discriminate.
  - inversion E; subst. rewrite Ascii.eqb_refl in H1. discriminate.
  - inversion E; subst.
    apply andb_true_iff in H1 as [_ H1], H2 as [_ H2].
    destruct (IH s2 H1 H2 H3) as [-> ->]. now split.
Qed.

Lemma length_app s t :
  String.length (s +:+ t) = (String.length s + String.length t)%nat.
Proof.
  induction s as [|a s IH]; [reflexivity|]. rewrite app_cons. simpl.
  now rewrite IH.
Qed.

(** Cancellation on the right. *)
Lemma app_inv_r s1 s2 t : s1 +:+ t = s2 +:+ t -> s1 = s2.
Proof.
  revert s2. induction s1 as [|a s1 IH]; intros [|b s2] E;
    rewrite ?app_cons, ?app_nil_l in E.
  - reflexivity.
  - apply (f_equal String.length) in E. simpl in E.
    rewrite length_app in E. lia.
  - apply (f_equal String.length) in E. simpl in E.
    rewrite length_app in E. lia.
  - inversion E; subst. f_equal. now apply IH.
Qed.

Lemma app_inv_l s t1 t2 : s +:+ t1 = s +:+ t2 -> t1 = t2.
Proof.
  induction s as [|a s IH]; rewrite ?app_cons, ?app_nil_l; [easy|].
  intros E. inversion E. auto.
Qed.

End StrFacts.

(** ** The regular-expression matcher decides membership *)

Module RegexFacts.
Import Regex StrFacts.

Lemma nullable_spec r : nullable r = true <-> Matches r "".
Proof.
  split.
  - induction r; simpl; intros H; try discriminate.
    + constructor.
    + apply andb_true_iff in H as [H1 H2].
      change "" with ("" +:+ ""). constructor; auto.
    + apply orb_true_iff in H as [H|H]; [apply MAltL | apply MAltR]; auto.
    + constructor.
  - intros H. remember "" as w eqn:E.
    induction H; simpl; try discriminate; auto.
    + apply app_eq_nil in E as [-> ->]. now rewrite IHMatches1, IHMatches2.
    + now rewrite IHMatches.
    + rewrite IHMatches by assumption. apply orb_true_r.
Qed.

Lemma cat_inv r s w :
  Matches (Cat r s) w <-> exists u v, w = u +:+ v /\ Matches r u /\ Matches s v.
Proof.
  split.
  - intros H. inversion H; subst. eauto.
  - intros (u & v & -> & Hu & Hv). now constructor.
Qed.

Lemma alt_inv r s w : Matches (Alt r s) w <-> Matches r w \/ Matches s w.
Proof.
  split.
  - intros H. inversion H; subst; auto.
  - intros [H|H]; [apply MAltL | apply MAltR]; assumption.
Qed.

(** A word of [r*] that starts with [a] starts with a word of [r] that
    starts with [a]. *)
Lemma star_cons_inv r a w :
  Matches (Star r) (String a w) ->
  exists u v, w = u +:+ v /\ Matches r (String a u) /\ Matches (Star r) v.
Proof.
  intros H. remember (Star r) as q eqn:Eq. remember (String a w) as x eqn:Ex.
  revert w Ex. induction H; intros w Ex; try discriminate.
  inversion Eq; subst.
  destruct u as [|b u].
  - rewrite app_nil_l in Ex. auto.
  - rewrite app_cons in Ex. inversion Ex; subst. eauto.
Qed.

Lemma deriv_spec r : forall a w, Matches (deriv a r) w <-> Matches r (String a w).
Proof.
  induction r as [| |c| |r IHr s IHs|r IHr s IHs|r IHr]; intros a w; simpl.
  - split; intros H; inversion H.
  - split; intros H; inversion H.
  - destruct (Ascii.eqb_spec a c) as [->|Hne]; split; intros H;
      inversion H; subst; try constructor; congruence.
  - destruct (PyStr.isdecimal a) eqn:Ha; split; intros H;
      inversion H; subst; try (now constructor); congruence.
  - assert (Hcat : Matches (Cat (deriv a r) s) w ->
                   Matches (Cat r s) (String a w)).
    { intros H. apply cat_inv in H as (u & v & -> & Hu & Hv).
      rewrite <- app_cons. constructor; [now apply IHr | assumption]. }
    assert (Hinv : Matches (Cat r s) (String a w) ->
                   Matches (Cat (deriv a r) s) w \/
                   (nullable r = true /\ Matches (deriv a s) w)).
    { intros H. apply cat_inv in H as (u & v & E & Hu & Hv).
      destruct u as [|b u].
      - rewrite app_nil_l in E. subst v. right. split.
        + now apply nullable_spec.
        + now apply IHs.
      - rewrite app_cons in E. inversion E; subst. left.
        constructor; [now apply IHr | assumption]. }
    destruct (nullable r) eqn:Hn.
    + rewrite alt_inv. split.
      * intros [H|H]; [now apply Hcat|].
        change (String a w) with ("" +:+ String a w).
        constructor; [now apply nullable_spec | now apply IHs].
      * intros H. destruct (Hinv H) as [H'|[_ H']]; auto.
    + split; [exact Hcat|].
      intros H. destruct (Hinv H) as [H'|[H' _]]; [assumption|discriminate].
  - rewrite !alt_inv, IHr, IHs. reflexivity.
  - split.
    + intros H. apply cat_inv in H as (u & v & -> & Hu & Hv).
      rewrite <- app_cons. constructor; [now apply IHr | assumption].
    + intros H. apply star_cons_inv in H as (u & v & -> & Hu & Hv).
      constructor; [now apply IHr | assumption].
Qed.

Theorem fullmatch_spec w : forall r, fullmatch r w = true <-> Matches r w.
Proof.
  induction w as [|a w IH]; intros r; simpl.
  - apply nullable_spec.
  - rewrite IH. apply deriv_spec.
Qed.

End RegexFacts.

(** ** What the version validator accepts *)

Module VersionFacts.
Import Regex StrFacts RegexFacts.

Lemma star_digit_inv w :
  Matches (Star Digit) w <-> PyStr.forallb_str PyStr.isdecimal w = true.
Proof.
  split.
  - intros H. remember (Star Digit) as q eqn:Eq.
    induction H; try discriminate; [reflexivity|].
    inversion Eq; subst. rewrite forallb_app, IHMatches2 by reflexivity.
    inversion H; subst. simpl.
    match goal with Hd : PyStr.isdecimal _ = true |- _ => now rewrite Hd end.
  - induction w as [|c w IH]; simpl; intros H; [constructor|].
    apply andb_true_iff in H as [Hc Hw].
    change (String c w) with (String c "" +:+ w).
    constructor; [now constructor | auto].
Qed.

Lemma plus_digit_inv w : Matches (Plus Digit) w <-> digits w.
Proof.
  unfold Plus, digits. rewrite cat_inv. split.
  - intros (u & v & -> & Hu & Hv). inversion Hu; subst.
    apply star_digit_inv in Hv. rewrite app_cons, app_nil_l. simpl.
    split; [discriminate|].
    match goal with Hd : PyStr.isdecimal _ = true |- _ => now rewrite Hd, Hv end.
  - intros [Hne H]. destruct w as [|c w]; [congruence|].
    simpl in H. apply andb_true_iff in H as [Hc Hw].
    exists (String c ""), w. repeat split.
    + now constructor.
    + now apply star_digit_inv.
Qed.

Lemma lit_inv c w : Matches (Lit c) w <-> w = String c "".
Proof. split; intros H; [now inversion H | subst; constructor]. Qed.

Lemma dollar_inv w : Matches dollar w <-> w = "" \/ w = String "010" "".
Proof.
  unfold dollar. rewrite alt_inv, lit_inv. split; intros [H|H]; auto.
  - inversion H; auto.
  - subst. left. constructor.
Qed.

Lemma version_pattern_inv w : Matches version_pattern w <-> is_semver w.
Proof.
  unfold version_pattern, is_semver. split.
  - intros H.
    apply cat_inv in H as (x & w1 & -> & Hx & H).
    apply cat_inv in H as (d1 & w2 & -> & Hd1 & H).
    apply cat_inv in H as (y & w3 & -> & Hy & H).
    apply cat_inv in H as (d2 & z & -> & Hd2 & Hz).
    apply lit_inv in Hd1, Hd2. subst.
    apply plus_digit_inv in Hx, Hy, Hz.
    exists x, y, z. auto.
  - intros (x & y & z & Hx & Hy & Hz & ->).
    apply plus_digit_inv in Hx, Hy, Hz.
    repeat (constructor; try assumption).
Qed.

(** The validator accepts the versions [x.y.z], and also each of them
    followed by one newline. *)
Theorem match_version_iff v :
  match_anchored version_pattern v = true <->
  is_semver v \/ exists v0, is_semver v0 /\ v = v0 +:+ String "010" "".
Proof.
  unfold match_anchored. rewrite fullmatch_spec, cat_inv. split.
  - intros (u & e & -> & Hu & He).
    apply version_pattern_inv in Hu. apply dollar_inv in He as [->| ->].
    + left. now rewrite app_nil_r.
    + right. eauto.
  - intros [H|(v0 & H & ->)].
    + exists v, "". rewrite app_nil_r. repeat split.
      * now apply version_pattern_inv.
      * apply dollar_inv. auto.
    + exists v0, (String "010" ""). repeat split.
      * now apply version_pattern_inv.
      * apply dollar_inv. auto.
Qed.

Definition semver_char (c : ascii) : bool :=
  PyStr.isdecimal c || Ascii.eqb c ".".

Lemma forallb_impl (p q : ascii -> bool) s :
  (forall c, p c = true -> q c = true) ->
  PyStr.forallb_str p s = true -> PyStr.forallb_str q s = true.
Proof.
  intros Hpq. induction s as [|c s IH]; simpl; [easy|].
  intros H. apply andb_true_iff in H as [Hc Hs].
  now rewrite (Hpq c Hc), IH.
Qed.

Lemma digits_chars s : digits s -> PyStr.forallb_str semver_char s = true.
Proof.
  intros [_ H]. revert H. apply forallb_impl.
  intros c Hc. unfold semver_char. now rewrite Hc.
Qed.

Lemma semver_chars s : is_semver s -> PyStr.forallb_str semver_char s = true.
Proof.
  intros (x & y & z & Hx & Hy & Hz & ->).
  rewrite !forallb_app.
  rewrite (digits_chars x), (digits_chars y), (digits_chars z) by assumption.
  reflexivity.
Qed.

(** An accepted version is made of digits and dots, but for a last
    newline. *)
Lemma accepted_avoids c v :
  semver_char c = false -> c <> "010"%char ->
  match_anchored version_pattern v = true ->
  PyStr.forallb_str (fun a => negb (Ascii.eqb a c)) v = true.
Proof.
  intros Hc Hnl H. apply match_version_iff in H.
  assert (Hs : forall a, semver_char a = true -> negb (Ascii.eqb a c) = true).
  { intros a Ha. destruct (Ascii.eqb_spec a c) as [->|]; [|reflexivity].
    congruence. }
  destruct H as [H|(v0 & H & ->)].
  - eapply forallb_impl; [exact Hs | now apply semver_chars].
  - rewrite forallb_app. apply andb_true_iff. split.
    + eapply forallb_impl; [exact Hs | now apply semver_chars].
    + cbn [PyStr.forallb_str].
      destruct (Ascii.eqb_spec "010" c) as [<-|]; [congruence|reflexivity].
Qed.

Lemma examples_accepted_rejected :
  match_anchored version_pattern "17.5.2" = true /\
  match_anchored version_pattern "17.5" = false /\
  match_anchored version_pattern "17.5.2.1" = false /\
  match_anchored version_pattern "abc" = false.
Proof. repeat split; vm_compute; reflexivity. Qed.

End VersionFacts.

(** ** Rules for running the program step by step *)

Ltac mred :=
  cbv beta iota zeta delta
    [bind ret throw try_except for_each print emit ask get_globals set_globals
     get_files set_files check_tool input sleep exists_ unlink rename
     mkdir_local_dir urlretrieve extract_xz sys_exit is_Exception];
  cbn [globals files now log fst snd negb andb orb].

Module Rules.
Section Rules.

Variable env : Env.

Lemma is_Some_Some {A} (x : A) : bool_decide (is_Some (Some x)) = true.
Proof. apply bool_decide_true. eauto. Qed.

Lemma is_Some_None {A} : bool_decide (is_Some (@None A)) = false.
Proof. apply bool_decide_false. intros [x Hx]. discriminate. Qed.

(** Only the certificate conversions write a local file. *)
Lemma child_effect_adb sub args w fs :
child_effect ("adb" :: sub :: args) w fs = fs.
Proof. reflexivity. Qed.

Lemma child_effect_frida_ps sub args w fs :
child_effect ("frida-ps" :: sub :: args) w fs = fs.
Proof. reflexivity. Qed.

Lemma child_effect_hash w fs : child_effect hash_command w fs = fs.
Proof. reflexivity. Qed.

Lemma child_effect_der cert w fs :
child_effect (der_command cert) w fs
= match w with Some c => <[temp_pem := c]> fs | None => fs end.
Proof. reflexivity. Qed.

Lemma child_effect_pem cert w fs :
child_effect (pem_command cert) w fs
= match w with Some c => <[temp_pem := c]> fs | None => fs end.
Proof. reflexivity. Qed.

Lemma child_effect_getprop s w fs :
  child_effect (getprop_command s) w fs = fs.
Proof. reflexivity. Qed.

Lemma child_effect_chmod s w fs :
  child_effect (chmod_command s) w fs = fs.
Proof. reflexivity. Qed.

Lemma child_effect_su_kill s w fs :
  child_effect (su_kill_command s) w fs = fs.
Proof. reflexivity. Qed.

Lemma child_effect_kill s w fs :
  child_effect (kill_command s) w fs = fs.
Proof. reflexivity. Qed.

Lemma child_effect_setenforce s w fs :
  child_effect (setenforce_command s) w fs = fs.
Proof. reflexivity. Qed.

Lemma child_effect_root s w fs :
  child_effect (root_command s) w fs = fs.
Proof. reflexivity. Qed.

Lemma child_effect_su_launch s w fs :
  child_effect (su_launch_command s) w fs = fs.
Proof. reflexivity. Qed.

Lemma child_effect_launch s w fs :
  child_effect (launch_command s) w fs = fs.
Proof. reflexivity. Qed.

Lemma child_effect_ps s w fs :
  child_effect (ps_command s) w fs = fs.
Proof. reflexivity. Qed.

Lemma child_effect_push s w fs :
  child_effect (push_command env s) w fs = fs.
Proof. reflexivity. Qed.

(** *** Control *)

Lemma wp_ret {A} (a : A) Q st : Q (Ret a) st -> wp (ret a) Q st.
Proof. exact id. Qed.

Lemma wp_throw {A} e (Q : result A -> State -> Prop) st :
Q (Raise e) st -> wp (throw e) Q st.
Proof. exact id. Qed.

Lemma wp_bind {A B} (m : M A) (f : A -> M B) Q st :
wp m (fun r st' => match r with
                 | Ret a => wp (f a) Q st'
                 | Raise e => Q (Raise e) st'
                 end) st ->
wp (bind m f) Q st.
Proof.
unfold wp, bind. destruct (m st) as [[a|e] st']; cbn [fst snd]; exact id.
Qed.

Lemma wp_try {A} (body : M A) handler Q st :
wp body (fun r st' => match r with
                    | Ret a => Q (Ret a) st'
                    | Raise e =>
                        if is_Exception e then wp (handler e) Q st'
                        else Q (Raise e) st'
                    end) st ->
wp (try_except body handler) Q st.
Proof.
unfold wp, try_except. destruct (body st) as [[a|e] st']; cbn [fst snd];
[exact id|].
destruct (is_Exception e); exact id.
Qed.

(** A stronger postcondition may be weakened. *)
Lemma wp_mono {A} (m : M A) (Q Q' : result A -> State -> Prop) st :
wp m Q st -> (forall r st', Q r st' -> Q' r st') -> wp m Q' st.
Proof. unfold wp. auto. Qed.

(** *** Primitives *)

Lemma wp_print m Q g fs t l :
Q (Ret tt) (mkState g fs t (l ++ [Print m])) ->
wp (print m) Q (mkState g fs t l).
Proof. exact id. Qed.

Lemma wp_sleep n Q g fs t l :
Q (Ret tt) (mkState g fs t (l ++ [Sleep n])) ->
wp (sleep n) Q (mkState g fs t l).
Proof. exact id. Qed.

Lemma wp_check_tool name Q g fs t l :
Q (Ret (which env t name)) (mkState g fs (S t) l) ->
wp (check_tool env name) Q (mkState g fs t l).
Proof. exact id. Qed.

Lemma wp_input Q g fs t l :
Q (Ret (typed env t)) (mkState g fs (S t) (l ++ [Input (typed env t)])) ->
wp (input env) Q (mkState g fs t l).
Proof. exact id. Qed.

Lemma wp_get_globals Q g fs t l :
Q (Ret g) (mkState g fs t l) -> wp get_globals Q (mkState g fs t l).
Proof. exact id. Qed.

Lemma wp_set_globals f Q g fs t l :
Q (Ret tt) (mkState (f g) fs t l) ->
wp (set_globals f) Q (mkState g fs t l).
Proof. exact id. Qed.

Lemma wp_exists p Q g fs t l :
Q (Ret (bool_decide (is_Some (fs !! p)))) (mkState g fs t l) ->
wp (exists_ p) Q (mkState g fs t l).
Proof. exact id. Qed.

Lemma wp_unlink p Q g fs t l :
match fs !! p with
| Some _ => Q (Ret tt) (mkState g (delete p fs) t l)
| None => Q (Raise (FileNotFoundError p)) (mkState g fs t l)
end ->
wp (unlink p) Q (mkState g fs t l).
Proof. unfold wp. mred. destruct (fs !! p); exact id. Qed.

Lemma wp_rename src dst Q g fs t l :
match fs !! src with
| None => Q (Raise (FileNotFoundError src)) (mkState g fs (S t) l)
| Some c =>
  if rename_ok env t
  then Q (Ret tt) (mkState g (<[dst := c]> (delete src fs)) (S t) l)
  else Q (Raise OSError) (mkState g fs (S t) l)
end ->
wp (rename env src dst) Q (mkState g fs t l).
Proof.
unfold wp. mred. destruct (fs !! src); [destruct (rename_ok env t)|];
exact id.
Qed.

Lemma wp_mkdir Q g fs t l :
(if mkdir_ok env t then Q (Ret tt) (mkState g fs (S t) l)
 else Q (Raise OSError) (mkState g fs (S t) l)) ->
wp (mkdir_local_dir env) Q (mkState g fs t l).
Proof. unfold wp. mred. destruct (mkdir_ok env t); exact id. Qed.

(** [run_command]: the child runs and is logged; with [check] a non-zero
status is reported and raised. *)
Lemma wp_run_command cmd check Q g fs t l :
(if check && negb (returncode (respond env t cmd) =? 0)
 then Q (Raise (CalledProcessError cmd (respond env t cmd)))
      (mkState g (child_effect cmd (writes env t cmd) fs) (S t)
         (l ++ [Exec cmd (respond env t cmd);
                Print (MsgCommandFailed cmd)]))
 else Q (Ret (respond env t cmd))
      (mkState g (child_effect cmd (writes env t cmd) fs) (S t)
         (l ++ [Exec cmd (respond env t cmd)]))) ->
wp (run_command env cmd check) Q (mkState g fs t l).
Proof.
unfold wp, run_command, subprocess_run. mred.
destruct (check && negb (returncode (respond env t cmd) =? 0));
mred; rewrite <- ?app_assoc; exact id.
Qed.

Lemma wp_urlretrieve url dest Q g fs t l :
match url, dest with
| Some u, Some d =>
  match fetch env t u with
  | Fetched body =>
      Q (Ret tt)
        (mkState g (<[d := body]> fs) (S t)
           (l ++ [Urlretrieve u d (Fetched body)]))
  | FetchFailed partial =>
      Q (Raise URLError)
        (mkState g
           (match partial with
            | Some body => <[d := body]> fs
            | None => fs
            end) (S t) (l ++ [Urlretrieve u d (FetchFailed partial)]))
  end
| _, _ => Q (Raise TypeError) (mkState g fs t l)
end ->
wp (urlretrieve env url dest) Q (mkState g fs t l).
Proof.
unfold wp. destruct url as [u|], dest as [d|]; mred; try exact id.
destruct (fetch env t u) as [body|[body|]]; exact id.
Qed.

Lemma wp_extract_xz src Q g fs t l :
match src with
| None => Q (Raise TypeError) (mkState g fs t l)
| Some p =>
  match fs !! p with
  | None => Q (Raise (FileNotFoundError p)) (mkState g fs t l)
  | Some packed =>
      match unxz env packed with
      | None =>
          Q (Raise LZMAError)
            (mkState g (<[LOCAL_BIN env := ""]> fs) t l)
      | Some data =>
          Q (Ret tt)
            (mkState g (<[LOCAL_BIN env := data]> fs) t l)
      end
  end
end ->
wp (extract_xz env src) Q (mkState g fs t l).
Proof.
unfold wp. destruct src as [p|]; mred; [|exact id].
destruct (fs !! p) as [packed|]; [|exact id]. mred.
destruct (unxz env packed); mred; [|exact id].
now rewrite insert_insert_eq.
Qed.

(** The handler of [push_burp_cert] removes what is there to remove and
never raises. *)
Lemma wp_cleanup_cert h e Q g fs t l :
Q (Ret tt)
(mkState g
   (match h with
    | Some p => delete p (delete temp_pem fs)
    | None => delete temp_pem fs
    end) t (l ++ [Print (MsgError e)])) ->
wp (cleanup_cert h e) Q (mkState g fs t l).
Proof.
assert (E : cleanup_cert h e (mkState g fs t l) =
(Ret tt,
 mkState g
   (match h with
    | Some p => delete p (delete temp_pem fs)
    | None => delete temp_pem fs
    end) t (l ++ [Print (MsgError e)]))).
{ unfold cleanup_cert. mred.
destruct (fs !! temp_pem) as [c|] eqn:Ht;
  rewrite ?is_Some_Some, ?is_Some_None; mred; rewrite ?Ht; mred.
- destruct h as [p|]; mred; [|reflexivity].
  destruct (delete temp_pem fs !! p) as [c'|] eqn:Hp;
    rewrite ?is_Some_Some, ?is_Some_None; mred; rewrite ?Hp; mred;
    [reflexivity|].
  now rewrite (delete_id _ _ Hp).
- rewrite (delete_id _ _ Ht).
  destruct h as [p|]; mred; [|reflexivity].
  destruct (fs !! p) as [c'|] eqn:Hp;
    rewrite ?is_Some_Some, ?is_Some_None; mred; rewrite ?Hp; mred;
    [reflexivity|].
  now rewrite (delete_id _ _ Hp). }
unfold wp. rewrite E. exact id.
Qed.

End Rules.
End Rules.

Create Rewrite HintDb run.
#[global] Hint Rewrite Rules.child_effect_adb Rules.child_effect_frida_ps
  Rules.child_effect_hash Rules.child_effect_der Rules.child_effect_pem
  @Rules.is_Some_Some @Rules.is_Some_None
  Rules.child_effect_getprop Rules.child_effect_chmod
  Rules.child_effect_su_kill Rules.child_effect_kill
  Rules.child_effect_setenforce Rules.child_effect_root
  Rules.child_effect_su_launch Rules.child_effect_launch
  Rules.child_effect_ps Rules.child_effect_push : run.

Ltac wp_simpl :=
  cbn beta iota delta
    [negb andb orb is_Exception
     CERT_FILE FRIDA_VER FRIDA_ARCH FRIDA_URL AUTO_DETECT_ARCH LOCAL_XZ];
  autorewrite with run;
  cbn beta iota.

(** One step of the run in the goal. *)
Ltac wp_step :=
  cbn beta iota delta [negb andb orb is_Exception];
  lazymatch goal with
  | |- wp (bind _ _) _ _ => apply Rules.wp_bind
  | |- wp (try_except _ _) _ _ => apply Rules.wp_try
  | |- wp (ret _) _ _ => apply Rules.wp_ret
  | |- wp (throw _) _ _ => apply Rules.wp_throw
  | |- wp (sys_exit _) _ _ => apply Rules.wp_throw
  | |- wp (print _) _ _ => apply Rules.wp_print
  | |- wp (sleep _) _ _ => apply Rules.wp_sleep
  | |- wp (check_tool _ _) _ _ => apply Rules.wp_check_tool
  | |- wp (input _) _ _ => apply Rules.wp_input
  | |- wp get_globals _ _ => apply Rules.wp_get_globals
  | |- wp (set_globals _) _ _ => apply Rules.wp_set_globals
  | |- wp (exists_ _) _ _ => apply Rules.wp_exists
  | |- wp (unlink _) _ _ => apply Rules.wp_unlink
  | |- wp (rename _ _ _) _ _ => apply Rules.wp_rename
  | |- wp (mkdir_local_dir _) _ _ => apply Rules.wp_mkdir
  | |- wp (run_command _ _ _) _ _ => apply Rules.wp_run_command
  | |- wp (urlretrieve _ _ _) _ _ => apply Rules.wp_urlretrieve
  | |- wp (extract_xz _ _) _ _ => apply Rules.wp_extract_xz
  | |- wp (cleanup_cert _ _) _ _ => apply Rules.wp_cleanup_cert
  | |- wp (convert_cert _ _) _ _ => unfold convert_cert
  | |- wp (install_cert _ _) _ _ => unfold install_cert
  | |- wp (push_burp_cert _) _ _ => unfold push_burp_cert
  | |- wp (resolve_arch _ _ _) _ _ => unfold resolve_arch
  | |- wp (push_and_launch _ _) _ _ => unfold push_and_launch
  | |- wp (setup_frida_server _ _ _) _ _ => unfold setup_frida_server
  | |- wp (validate_frida_version _) _ _ => unfold validate_frida_version
  | |- wp (validate_frida_arch _) _ _ => unfold validate_frida_arch
  | |- wp (show_menu _) _ _ => unfold show_menu
  | |- wp (configure _ _) _ _ => unfold configure
  | |- wp (if negb ?b then _ else _) _ _ => destruct b eqn:?
  | |- wp (if ?b then _ else _) _ _ => destruct b eqn:?
  | |- wp (match ?x with _ => _ end) _ _ => destruct x eqn:?
  | |- (if negb ?b then _ else _) => destruct b eqn:?
  | |- (if ?b then _ else _) => destruct b eqn:?
  | |- (match ?x with _ => _ end) => destruct x eqn:?
  end;
  wp_simpl.

Ltac wp_run := repeat wp_step.

(** At the end of a run: what was added to the log. *)
Ltac wp_log :=
  unfold new_events; cbn [log globals files now];
  rewrite <- ?app_assoc; cbn [app]; rewrite ?drop_app_length.

(** Membership decided by computation, for closed lists. *)
Lemma In_by_decide {A} `{EqDecision A} (x : A) (l : list A) :
  bool_decide (x ∈ l) = true -> In x l.
Proof. intros H. apply list_elem_of_In. now apply bool_decide_eq_true_1 in H. Qed.

Lemma not_In_by_decide {A} `{EqDecision A} (x : A) (l : list A) :
  bool_decide (x ∈ l) = false -> ~ In x l.
Proof.
  intros H Hin. apply list_elem_of_In in Hin.
  apply bool_decide_eq_false_1 in H. contradiction.
Qed.

Lemma none_holds_by_decide {A B} `{EqDecision B} (y : B) (f : A -> list B)
    (l : list A) :
  forallb (fun x => negb (bool_decide (y ∈ f x))) l = true ->
  forall x, In x l -> ~ In y (f x).
Proof.
  intros H x Hx. rewrite forallb_forall in H. specialize (H x Hx).
  apply negb_true_iff in H. now apply not_In_by_decide.
Qed.

Ltac in_computed := apply In_by_decide; vm_compute; reflexivity.
Ltac not_in_computed := apply not_In_by_decide; vm_compute; reflexivity.

(** Membership in an explicit list, case by case. *)
Ltac in_cases H :=
  cbn [In] in H;
  repeat (destruct H as [H|H]; [try discriminate H|]);
  try contradiction.

(** The same when telling two commands apart takes computing them. *)
Ltac in_cases_cbv H :=
  cbn [In] in H;
  repeat (destruct H as [H|H];
          [try discriminate H; try (cbv in H; discriminate H)|]);
  try contradiction.

Ltac in_here :=
  solve [cbn [commands In]; repeat first [left; reflexivity | right]].

(** ** Module 1: certificate conversion and cleanup *)


Lemma hash_name_not_temp r : hash_name_of r <> temp_pem.
Proof.
  unfold hash_name_of, temp_pem. intros E.
  apply (f_equal PyStr.rev) in E. revert E.
  generalize (match PyStr.split_on "010" (PyStr.strip (stdout r)) with
              | [] => "" | h :: _ => h end) as h.
  intros h. unfold PyStr.rev.
  assert (R : forall s t acc,
             PyStr.rev_onto (s +:+ t) acc = PyStr.rev_onto t (PyStr.rev_onto s acc)).
  { induction s as [|a s IH]; intros t acc; [reflexivity|].
    rewrite StrFacts.app_cons. simpl. apply IH. }
  rewrite R. simpl. discriminate.
Qed.

Lemma lookup_insert_same (m : gmap string string) k v : <[k := v]> m !! k = Some v.
Proof. apply lookup_insert_eq. Qed.

#[global] Hint Rewrite lookup_insert_same : run.

(** Files after a run of module 1, looked up. *)
Ltac files_solve :=
  repeat match goal with
         | |- context [match ?w with Some _ => _ | None => _ end] =>
             destruct w
         end;
  repeat (rewrite lookup_delete || rewrite lookup_insert);
  repeat case_decide; subst;
  try reflexivity; try congruence;
  try (exfalso; eapply hash_name_not_temp; eauto; fail).




(** ** Module 2: deployment on one device *)

Ltac unfold_commands :=
  unfold getprop_command, push_command, chmod_command, su_kill_command,
    kill_command, setenforce_command, root_command, su_launch_command,
    launch_command, ps_command, adb in *.


(** One deployment whose ABI query and directory creation succeed asks the
    artifact host exactly once, returns, and keeps the globals coherent. *)
Lemma setup_downloads_once env st serial auto :
  returncode (respond env (now st) (getprop_command serial)) = 0 ->
  mkdir_ok env (S (now st)) = true ->
  configured env (globals st) ->
  wp (setup_frida_server env serial auto)
    (fun res st' =>
       res = Ret tt /\ configured env (globals st') /\
       exists new, log st' = log st ++ new /\ downloads new = 1%nat)
    st.
Proof.
  destruct st as [g fs t l]. cbn [globals files now log].
  intros Hg Hm [Hu Hx]. apply Z.eqb_eq in Hg.
  repeat (rewrite ?Hg, ?Hm, ?Hu, ?Hx; wp_step).
  all: cbn [log globals]; rewrite <- ?app_assoc; cbn [app].
  all: split; [reflexivity|].
  all: split; [first [now split | split; reflexivity]|].
  all: eexists; split; reflexivity.
Qed.

(** C1, as the program has it. Each deployment asks the artifact host
    anew: across two successive deployments whose ABI query and directory
    creation succeed, the download is made twice, whatever the local files
    are, those of the artifact included. *)
Theorem C1_download_on_every_deployment env st serial1 serial2 auto1 auto2 :
  (forall t s, returncode (respond env t (getprop_command s)) = 0) ->
  (forall t, mkdir_ok env t = true) ->
  configured env (globals st) ->
  wp (setup_frida_server env serial1 auto1 ;;
      setup_frida_server env serial2 auto2)
    (fun _ st' => downloads (new_events st st') = 2%nat)
    st.
Proof.
  intros Hg Hm Hc. apply Rules.wp_bind.
  eapply Rules.wp_mono; [apply setup_downloads_once; auto|].
  intros r st1 (-> & Hc1 & new1 & Hl1 & Hd1).
  eapply Rules.wp_mono; [apply setup_downloads_once; auto|].
  intros r st2 (_ & _ & new2 & Hl2 & Hd2).
  unfold new_events. rewrite Hl2, Hl1, <- app_assoc, drop_app_length.
  unfold downloads in *. rewrite List.filter_app, length_app. lia.
Qed.

(** Witness of C1: two deployments on the phone of the scenario. *)
Lemma C1_witness :
  let env := Scenario.workstation Scenario.respond_ok "2" "0" in
  let st := Scenario.ready in
  ((forall t s, returncode (respond env t (getprop_command s)) = 0) /\
   (forall t, mkdir_ok env t = true) /\
   configured env (globals st)) /\
  wp (setup_frida_server env "ZX1G22" true ;;
      setup_frida_server env "ZX1G22" true)
    (fun _ st' => downloads (new_events st st') = 2%nat)
    st.
Proof.
  intros env st.
  assert (Hg : forall t s, returncode (respond env t (getprop_command s)) = 0)
    by reflexivity.
  assert (Hm : forall t, mkdir_ok env t = true) by reflexivity.
  assert (Hc : configured env (globals st)) by (split; reflexivity).
  split; [auto|].
  apply (C1_download_on_every_deployment env st "ZX1G22" "ZX1G22" true true
           Hg Hm Hc).
Defined.

(** C1 fails as stated: with the archive and the binary of 17.5.2 for
    android-arm64 already in the local directory, two deployments on an
    arm64 device ask the artifact host twice. *)
Lemma C1_counterexample :
  let env := Scenario.workstation Scenario.respond_ok "2" "0" in
  let st := Scenario.ready in
  let twice := (setup_frida_server env "ZX1G22" true ;;
                setup_frida_server env "ZX1G22" true)%M in
  is_Some (files st !! (cache_paths env "17.5.2" "android-arm64").1) /\
  is_Some (files st !! (cache_paths env "17.5.2" "android-arm64").2) /\
  FRIDA_ARCH (globals (twice st).2) = Some "android-arm64" /\
  ~ (downloads (new_events st (twice st).2) <= 1)%nat.
Proof.
  intros env st twice.
  split; [vm_compute; eauto|]. split; [vm_compute; eauto|].
  split; [vm_compute; reflexivity|].
  assert (E : downloads (new_events st (twice st).2) = 2%nat)
    by (vm_compute; reflexivity).
  rewrite E. lia.
Qed.

(** ** The artifact cache *)

Module CacheFacts.
Import StrFacts VersionFacts.

Lemma local_xz_not_bin env v a : local_xz env v a <> LOCAL_BIN env.
Proof.
  unfold local_xz, LOCAL_BIN, local_path. intros E.
  apply app_inv_l, app_inv_l in E.
  apply (f_equal String.length) in E. rewrite length_app in E.
  cbn [String.length] in E. lia.
Qed.

Lemma local_xz_inj env v1 a1 v2 a2 :
  Regex.match_anchored version_pattern v1 = true ->
  Regex.match_anchored version_pattern v2 = true ->
  local_xz env (Some v1) (Some a1) = local_xz env (Some v2) (Some a2) ->
  v1 = v2 /\ a1 = a2.
Proof.
  intros H1 H2 E. unfold local_xz, local_path, fmt in E.
  cbn [default from_option id] in E.
  do 3 apply app_inv_l in E.
  apply (split_unique "-") in E;
    [|apply accepted_avoids; [reflexivity|discriminate|assumption]..].
  destruct E as [-> E]. split; [reflexivity|].
  now apply app_inv_r in E.
Qed.

Lemma frida_url_inj v1 a1 v2 a2 :
  Regex.match_anchored version_pattern v1 = true ->
  Regex.match_anchored version_pattern v2 = true ->
  frida_url (Some v1) (Some a1) = frida_url (Some v2) (Some a2) ->
  v1 = v2 /\ a1 = a2.
Proof.
  intros H1 H2 E. unfold frida_url, fmt in E.
  cbn [default from_option id] in E.
  apply app_inv_l in E.
  apply (split_unique "/") in E;
    [|apply accepted_avoids; [reflexivity|discriminate|assumption]..].
  destruct E as [-> E]. split; [reflexivity|].
  repeat match type of E with String _ _ = String _ _ => injection E as E end.
  apply app_inv_l in E. rewrite !app_cons, !app_nil_l in E.
  injection E as E. now apply app_inv_r in E.
Qed.

End CacheFacts.

(** Files after a deployment, looked up. *)
Ltac cache_solve :=
  repeat (rewrite lookup_insert);
  repeat case_decide; subst;
  try reflexivity; try congruence;
  try (exfalso; eapply CacheFacts.local_xz_not_bin; eauto; fail).

(** C5, as the program has it. A version and an architecture have one
    URL and one archive path, and two pairs of a valid version and a
    valid architecture that differ have different URLs and archive paths;
    what the archive expands to is kept at one path, the same for every
    pair; and a fetch replaces what was at these two paths, leaving every
    other file as it was. *)
Theorem C5_cache_paths env :
  (forall v1 a1 v2 a2,
      Regex.match_anchored version_pattern v1 = true ->
      Regex.match_anchored version_pattern v2 = true ->
      str_in a1 valid_archs = true ->
      str_in a2 valid_archs = true ->
      frida_url (Some v1) (Some a1) = frida_url (Some v2) (Some a2) \/
      (cache_paths env v1 a1).1 = (cache_paths env v2 a2).1 ->
      v1 = v2 /\ a1 = a2)
  /\ (forall v1 a1 v2 a2,
         (cache_paths env v1 a1).2 = (cache_paths env v2 a2).2)
  /\ (forall st serial auto,
         configured env (globals st) ->
         wp (setup_frida_server env serial auto)
           (fun _ st' =>
              forall url xz body,
                In (Urlretrieve url xz (Fetched body)) (new_events st st') ->
                FRIDA_URL (globals st') = Some url
                /\ LOCAL_XZ (globals st') = Some xz
                /\ files st' !! xz = Some body
                /\ files st' !! LOCAL_BIN env
                   = Some (default "" (unxz env body))
                /\ forall p, p <> xz -> p <> LOCAL_BIN env ->
                             files st' !! p = files st !! p)
           st).
Proof.
  split; [|split].
  - intros v1 a1 v2 a2 H1 H2 _ _ [E|E].
    + now apply CacheFacts.frida_url_inj.
    + now apply (CacheFacts.local_xz_inj env).
  - reflexivity.
  - intros [g fs t l] serial auto [Hu Hx]. cbn [globals] in Hu, Hx.
    repeat (rewrite ?Hu, ?Hx; wp_step).
    all: wp_log.
    all: intros url' xz' body' Hin; in_cases Hin.
    all: injection Hin as <- <- <-.
    all: cbn [globals files FRIDA_URL LOCAL_XZ].
    all: match goal with
         | Hz : unxz _ _ = _ |- _ => rewrite Hz
         end; cbn [default from_option id].
    all: repeat split; try assumption; try (intros p Hp1 Hp2); cache_solve.
Qed.

(** Witness of C5: a deployment on the emulator of the scenario. *)
Lemma C5_witness :
  let env := Scenario.workstation Scenario.respond_ok "2" "1" in
  let st := Scenario.ready in
  configured env (globals st) /\
  wp (setup_frida_server env "emulator-5554" true)
    (fun _ st' =>
       forall url xz body,
         In (Urlretrieve url xz (Fetched body)) (new_events st st') ->
         FRIDA_URL (globals st') = Some url
         /\ LOCAL_XZ (globals st') = Some xz
         /\ files st' !! xz = Some body
         /\ files st' !! LOCAL_BIN env = Some (default "" (unxz env body))
         /\ forall p, p <> xz -> p <> LOCAL_BIN env ->
                      files st' !! p = files st !! p)
    st.
Proof.
  intros env st.
  assert (Hc : configured env (globals st)) by (split; reflexivity).
  split; [exact Hc|].
  exact (proj2 (proj2 (C5_cache_paths env)) st "emulator-5554" true Hc).
Defined.

(** C5 fails as stated: two different pairs have the same path for what
    their archives expand to, and the deployment for the second replaces
    there what the deployment for the first had put. *)
Lemma C5_counterexample :
  let env := Scenario.workstation Scenario.respond_ok "2" "0" in
  let st1 := (setup_frida_server env "ZX1G22" true Scenario.ready).2 in
  let st2 := (setup_frida_server env "emulator-5554" true st1).2 in
  ("17.5.2", "android-arm64") <> ("17.5.2", "android-x86_64")
  /\ (cache_paths env "17.5.2" "android-arm64").2
     = (cache_paths env "17.5.2" "android-x86_64").2
  /\ FRIDA_ARCH (globals st1) = Some "android-arm64"
  /\ FRIDA_ARCH (globals st2) = Some "android-x86_64"
  /\ files st1 !! LOCAL_BIN env <> files st2 !! LOCAL_BIN env.
Proof.
  intros env st1 st2.
  split; [discriminate|]. split; [reflexivity|].
  split; [vm_compute; reflexivity|]. split; [vm_compute; reflexivity|].
  vm_compute. discriminate.
Qed.

(** ** The globals after startup *)

(** C3, as the program has it. [push_burp_cert] leaves the globals as
    they are. A deployment never changes the certificate path, the version
    and the auto-detect flag; without auto-detection it changes nothing;
    with auto-detection, once the ABI is known, it assigns the
    architecture resolved from it and the URL and archive path that go
    with it. *)
Theorem C3_globals_after_startup env st serial auto :
  wp (push_burp_cert env) (fun _ st' => globals st' = globals st) st
  /\ wp (setup_frida_server env serial auto)
       (fun _ st' =>
          CERT_FILE (globals st') = CERT_FILE (globals st)
          /\ FRIDA_VER (globals st') = FRIDA_VER (globals st)
          /\ AUTO_DETECT_ARCH (globals st') = AUTO_DETECT_ARCH (globals st)
          /\ (if auto then
                (forall abi,
                    In (Print (MsgAbi abi)) (new_events st st') ->
                    FRIDA_ARCH (globals st')
                    = Some (map_abi_to_frida_arch abi)
                    /\ configured env (globals st'))
                /\ ((forall abi, ~ In (Print (MsgAbi abi)) (new_events st st'))
                    -> globals st' = globals st)
              else globals st' = globals st))
       st.
Proof.
  destruct st as [g fs t l]. split.
  - wp_run; reflexivity.
  - destruct auto; wp_run.
    all: wp_log; cbn [CERT_FILE FRIDA_VER AUTO_DETECT_ARCH FRIDA_ARCH].
    all: repeat (split; [reflexivity|]); try reflexivity.
    all: split;
      [ intros abi Hin; in_cases Hin; injection Hin as <-;
        (split; [reflexivity | split; reflexivity])
      | intros Hno; try reflexivity; exfalso; eapply Hno; in_here ].
Qed.

(** Witness of C3: a deployment with auto-detection on the emulator. *)
Lemma C3_witness :
  let env := Scenario.workstation Scenario.respond_ok "2" "1" in
  let st := Scenario.ready in
  wp (setup_frida_server env "emulator-5554" true)
    (fun _ st' =>
       CERT_FILE (globals st') = CERT_FILE (globals st)
       /\ FRIDA_VER (globals st') = FRIDA_VER (globals st)
       /\ AUTO_DETECT_ARCH (globals st') = AUTO_DETECT_ARCH (globals st)
       /\ (forall abi,
              In (Print (MsgAbi abi)) (new_events st st') ->
              FRIDA_ARCH (globals st') = Some (map_abi_to_frida_arch abi)
              /\ configured env (globals st'))
          /\ ((forall abi, ~ In (Print (MsgAbi abi)) (new_events st st'))
              -> globals st' = globals st))
    st
  /\ In (Print (MsgAbi "x86_64"))
       (new_events st (setup_frida_server env "emulator-5554" true st).2).
Proof.
  intros env st. split.
  - exact (proj2 (C3_globals_after_startup env st "emulator-5554" true)).
  - vm_compute. tauto.
Defined.

(** C3 fails as stated: started with the default arguments, the program
    shows the globals it has set in its banner; after the deployment on
    the emulator, chosen at the prompt, the globals are others. *)
Lemma C3_counterexample :
  let env := Scenario.workstation Scenario.respond_ok "2" "1" in
  let final := (script env (ret tt) Scenario.default_args Scenario.disk).2 in
  In (Print (MsgBanner Scenario.default_config)) (log final)
  /\ globals final <> Scenario.default_config
  /\ FRIDA_ARCH (globals final) = Some "android-x86_64".
Proof.
  intros env final.
  split; [vm_compute; tauto|].
  assert (E : FRIDA_ARCH (globals final) = Some "android-x86_64")
    by (vm_compute; reflexivity).
  split; [|exact E].
  intros Heq. rewrite Heq in E. discriminate E.
Qed.

(** ** Architecture resolution *)

(** C7. The resolver maps the five ABI names of its table as the table
    says and every other string to [android-arm64]; being a lookup with a
    default, it has a value for every string. *)
Theorem C7_architecture_resolver :
  map_abi_to_frida_arch "arm64-v8a" = "android-arm64"
  /\ map_abi_to_frida_arch "armeabi-v7a" = "android-arm"
  /\ map_abi_to_frida_arch "armeabi" = "android-arm"
  /\ map_abi_to_frida_arch "x86_64" = "android-x86_64"
  /\ map_abi_to_frida_arch "x86" = "android-x86"
  /\ forall abi,
       ~ In abi ["arm64-v8a"; "armeabi-v7a"; "armeabi"; "x86_64"; "x86"] ->
       map_abi_to_frida_arch abi = "android-arm64".
Proof.
  do 5 (split; [vm_compute; reflexivity|]).
  intros abi Hout. unfold map_abi_to_frida_arch, mapping.
  cbn [In] in Hout.
  rewrite !lookup_insert_ne by (intros <-; tauto).
  now rewrite lookup_empty.
Qed.

(** Witness of C7: an ABI name the table does not have. *)
Lemma C7_witness :
  ~ In "mips64" ["arm64-v8a"; "armeabi-v7a"; "armeabi"; "x86_64"; "x86"]
  /\ map_abi_to_frida_arch "mips64" = "android-arm64".
Proof.
  assert (H : ~ In "mips64"
                ["arm64-v8a"; "armeabi-v7a"; "armeabi"; "x86_64"; "x86"])
    by (intros Hin; in_cases Hin).
  split; [exact H|].
  exact (proj2 (proj2 (proj2 (proj2 (proj2 C7_architecture_resolver))))
           "mips64" H).
Defined.

(** ** Startup validation *)

(** The architecture validator accepts the four canonical names only. *)
Lemma validate_frida_arch_iff arch :
  str_in arch valid_archs = true <->
  arch = "android-arm64" \/ arch = "android-arm"
  \/ arch = "android-x86_64" \/ arch = "android-x86".
Proof.
  unfold str_in, valid_archs. cbn [existsb].
  rewrite !orb_true_iff, !String.eqb_eq. intuition discriminate.
Qed.

(** What [configure] does with its arguments: with a version the
    validator accepts and, when an architecture is given, one of the four
    canonical ones, the globals are set coherently; otherwise the process
    exits with status 1.  Either way the menu has not been shown. *)
Lemma configure_spec env args st :
  wp (configure env args)
    (fun res st' =>
       ~ menu_shown (new_events st st')
       /\ if Regex.match_anchored version_pattern (frida_version args)
             && (negb (truthy (frida_arch args))
                 || str_in (fmt (frida_arch args)) valid_archs)
          then res = Ret tt /\ configured env (globals st')
               /\ FRIDA_VER (globals st') = Some (frida_version args)
               /\ CERT_FILE (globals st') = Some (cert_file args)
          else res = Raise (SystemExit 1))
    st.
Proof.
  destruct st as [g fs t l]. unfold menu_shown.
  wp_run.
  all: wp_log; cbn [negb andb orb globals].
  all: split; [intros Hin; in_cases Hin|].
  all: try reflexivity.
  all: repeat split; reflexivity.
Qed.

(** A rejected version or architecture ends the process with status 1
    before the menu. *)
Lemma invalid_arguments_exit env install_tools args fs :
  Regex.match_anchored version_pattern (frida_version args) = false \/
  (truthy (frida_arch args) = true /\
   str_in (fmt (frida_arch args)) valid_archs = false) ->
  (script env install_tools args fs).1 = 1
  /\ ~ menu_shown (log (script env install_tools args fs).2).
Proof.
  intros Hbad.
  pose proof (configure_spec env args (initial_state fs)) as H.
  unfold wp in H. unfold script, main, bind.
  destruct (configure env args (initial_state fs)) as [res st'].
  cbn [fst snd] in H. destruct H as [Hmenu Hres].
  unfold new_events in Hmenu. cbn [initial_state log length drop] in Hmenu.
  assert (Hc : Regex.match_anchored version_pattern (frida_version args)
               && (negb (truthy (frida_arch args))
                   || str_in (fmt (frida_arch args)) valid_archs) = false).
  { destruct Hbad as [->|[-> ->]]; [reflexivity|]. apply andb_false_r. }
  rewrite Hc in Hres. subst res. cbn [fst snd]. now split.
Qed.

(** C9 fails on the version: the validator accepts a string that is not
    of the form [x.y.z], the version 17.5.2 followed by a newline, and
    the program started with it goes on to the menu and ends with
    status 0. *)
Theorem C9_version_with_trailing_newline_accepted :
  let version := "17.5.2" +:+ Scenario.nl in
  let env := Scenario.workstation Scenario.respond_ok "4" "0" in
  let run := script env (ret tt) (mkArgs version None "./burp.cer" false)
               Scenario.disk in
  ~ is_semver version
  /\ Regex.match_anchored version_pattern version = true
  /\ run.1 = 0
  /\ menu_shown (log run.2).
Proof.
  intros version env run. split.
  - intros H. apply VersionFacts.semver_chars in H. vm_compute in H.
    discriminate H.
  - split; [vm_compute; reflexivity|].
    split; [vm_compute; reflexivity|].
    unfold menu_shown. vm_compute. tauto.
Qed.

(** ** Device listing and selection *)

(** The loop over the listing's lines keeps, in order, the first token of
    each line after the header whose second token is [device]. *)
Lemma parse_devices_listed out : parse_devices out = listed_devices out.
Proof.
  unfold parse_devices, listed_devices.
  generalize (tail (PyStr.split_on "010" (PyStr.strip out))) as lines.
  intros lines.
  change (map serial_token
            (filter (fun line => state_token line = Some "device") lines))
    with ([] ++ map serial_token
                  (filter (fun line => state_token line = Some "device")
                     lines)).
  generalize (@nil string) as acc.
  induction lines as [|line lines IH]; intros acc.
  - cbn [fold_left]. rewrite filter_nil. cbn [map]. now rewrite app_nil_r.
  - cbn [fold_left]. rewrite IH, filter_cons.
    unfold scan_line at 1. fold (state_token line). fold (serial_token line).
    destruct (state_token line) as [state|] eqn:Hs.
    + destruct (String.eqb_spec state "device") as [->|Hne].
      * rewrite decide_True by reflexivity. cbn [map].
        now rewrite <- app_assoc.
      * rewrite decide_False by congruence. reflexivity.
    + rewrite decide_False by discriminate. reflexivity.
Qed.

Lemma wp_print_entries devices :
  forall i (Q : result unit -> State -> Prop) g fs t l,
  (forall shown, Q (Ret tt) (mkState g fs t (l ++ shown))) ->
  wp (print_entries i devices) Q (mkState g fs t l).
Proof.
  induction devices as [|d devices IH]; intros i Q g fs t l HQ;
    cbn [print_entries].
  - apply Rules.wp_ret. specialize (HQ []). now rewrite app_nil_r in HQ.
  - apply Rules.wp_bind, Rules.wp_print. apply IH.
    intros shown. rewrite <- app_assoc. apply HQ.
Qed.

(** What [choose_device] returns when the listing command succeeds:
    nothing when no device is listed, the whole list for the choice [0],
    the device at the index for a decimal choice within range, nothing for
    a decimal choice out of range or a choice that is not made of digits;
    and [ValueError] for a choice made of digits that [int] does not
    take. *)
Lemma choose_device_spec env st :
  returncode (respond env (now st) ["adb"; "devices"]) = 0 ->
  wp (choose_device env)
    (fun res st' =>
       let devices :=
         listed_devices (stdout (respond env (now st) ["adb"; "devices"])) in
       let choice := PyStr.strip (typed env (S (now st))) in
       match devices with
       | [] => res = Ret []
       | _ :: _ =>
           if String.eqb choice "0" then res = Ret devices
           else if PyStr.isdigit choice then
             match PyStr.int (int_max_str_digits env) choice with
             | None => res = Raise ValueError
             | Some n =>
                 if (1 <=? n) && (n <=? Z.of_nat (length devices)) then
                   exists d, devices !! Z.to_nat (n - 1) = Some d
                             /\ res = Ret [d]
                 else res = Ret []
             end
           else res = Ret []
       end)
    st.
Proof.
  destruct st as [g fs t l]. cbn [now]. intros Hrc. apply Z.eqb_eq in Hrc.
  unfold choose_device. rewrite <- parse_devices_listed.
  do 4 wp_step. rewrite Hrc. wp_simpl.
  destruct (parse_devices (stdout (respond env t ["adb"; "devices"])))
    as [|d0 rest] eqn:Hd.
  { wp_run. reflexivity. }
  do 3 wp_step. apply wp_print_entries. intros shown.
  cbn beta iota. do 4 wp_step. cbn zeta.
  destruct (PyStr.strip (typed env (S t)) =? "0")%string; [wp_run; reflexivity|].
  destruct (PyStr.isdigit (PyStr.strip (typed env (S t))));
    [|wp_run; reflexivity].
  destruct (PyStr.int (int_max_str_digits env)
              (PyStr.strip (typed env (S t)))) as [n|];
    [|wp_run; reflexivity].
  destruct ((1 <=? n) && (n <=? Z.of_nat (length (d0 :: rest)))) eqn:Hn;
    [|wp_run; reflexivity].
  apply andb_true_iff in Hn as [H1 H2].
  apply Z.leb_le in H1, H2.
  destruct (lookup_lt_is_Some_2 (d0 :: rest) (Z.to_nat (n - 1))) as [d Hlk];
    [lia|].
  rewrite Hlk. wp_run. eauto.
Qed.

(** C6 fails on a choice made of digits that are not decimal: with two
    devices listed, the operator's answer [²] passes [isdigit], [int]
    raises [ValueError], and the selection ends in this error, which
    [main] reports, instead of being empty. *)
Theorem C6_superscript_choice_raises :
  let env :=
    Scenario.workstation Scenario.respond_ok "2" Scenario.superscript_two in
  let final := (script env (ret tt) Scenario.default_args Scenario.disk).2 in
  listed_devices Scenario.listing = ["emulator-5554"; "ZX1G22"]
  /\ PyStr.isdigit Scenario.superscript_two = true
  /\ PyStr.int (int_max_str_digits env) Scenario.superscript_two = None
  /\ (choose_device env Scenario.ready).1 = Raise ValueError
  /\ In (Print (MsgError ValueError)) (log final)
  /\ ~ In (Print MsgInvalidChoice) (log final).
Proof.
  intros env final.
  do 4 (split; [vm_compute; reflexivity|]).
  split; [in_computed|].
  not_in_computed.
Qed.

(** ** The loop over the selected devices *)

(** C2 fails on the ABI query: with the emulator and the phone both
    selected, the query on the emulator exits non-zero, [run_command]
    raises, the exception leaves the loop, and no command is ever run for
    the phone; [main] reports the error. *)
Theorem C2_failed_abi_query_leaves_the_loop :
  let env :=
    Scenario.workstation (Scenario.respond_but Scenario.emulator_silent)
      "2" "0" in
  let final := (script env (ret tt) Scenario.default_args Scenario.disk).2 in
  (choose_device env Scenario.ready).1 = Ret ["emulator-5554"; "ZX1G22"]
  /\ (exists r,
        In (Print (MsgError
                     (CalledProcessError (getprop_command "emulator-5554") r)))
           (log final))
  /\ (forall cmd, In cmd (commands (log final)) -> ~ In "ZX1G22" cmd)
  /\ ~ In (Print MsgAllDone) (log final).
Proof.
  intros env final.
  split; [vm_compute; reflexivity|].
  split; [exists (Scenario.completed 1 ""); vm_compute; tauto|].
  split.
  - apply (none_holds_by_decide "ZX1G22" (fun cmd => cmd)).
    vm_compute. reflexivity.
  - not_in_computed.
Qed.

(** In general: a failed ABI query makes the deployment raise, and an
    exception raised for one element of a loop ends the loop there. *)
Lemma failed_query_raises env st serial auto :
  returncode (respond env (now st) (getprop_command serial)) <> 0 ->
  wp (setup_frida_server env serial auto)
    (fun res st' =>
       res = Raise (CalledProcessError (getprop_command serial)
                      (respond env (now st) (getprop_command serial)))
       /\ commands (new_events st st') = [getprop_command serial])
    st.
Proof.
  destruct st as [g fs t l]. cbn [now]. intros Hrc.
  apply Z.eqb_neq in Hrc.
  repeat (rewrite ?Hrc; wp_step).
  rewrite Hrc. cbn [negb]. wp_log. split; reflexivity.
Qed.

Lemma for_each_stops_at_raise {A} (body : A -> M unit) x l e st st' :
  body x st = (Raise e, st') -> for_each (x :: l) body st = (Raise e, st').
Proof. intros H. cbn [for_each]. unfold bind. now rewrite H. Qed.

(** A sibling of the query: [detect_device_arch] never raises. *)
Lemma detect_device_arch_returns env serial st :
  exists arch, (detect_device_arch env serial st).1 = Ret arch.
Proof.
  unfold detect_device_arch, subprocess_run. mred.
  destruct (returncode (respond env (now st) (getprop_command serial)) =? 0);
    eauto.
Qed.

(** The sibling paths: a failed download ends the deployment on that
    device only, and the loop goes on with the next device. *)
Lemma failed_download_goes_on :
  let env :=
    Scenario.workstation_with Scenario.respond_ok
      (Scenario.fetch_but "x86_64") "2" "0" in
  let final := (script env (ret tt) Scenario.default_args Scenario.disk).2 in
  In (Print (MsgDownloadFailed URLError)) (log final)
  /\ In (su_launch_command "ZX1G22") (commands (log final))
  /\ In (Print MsgAllDone) (log final).
Proof.
  intros env final. split; [|split]; vm_compute; tauto.
Qed.


(** * Further properties *)

(** ** Resolution always yields an architecture the validator accepts *)

Lemma map_abi_valid abi :
  str_in (map_abi_to_frida_arch abi) valid_archs = true.
Proof.
  unfold map_abi_to_frida_arch, mapping.
  repeat (rewrite lookup_insert; case_decide; [reflexivity|]).
  now rewrite lookup_empty.
Qed.

(** X1. Whatever the ABI string, the architecture the resolver gives is
    one of the four the validator accepts. *)
Theorem resolver_yields_valid_arch abi :
  str_in (map_abi_to_frida_arch abi) valid_archs = true.
Proof. exact (map_abi_valid abi). Qed.


(** ** The globals stay valid *)

(** X3. When [configure] goes through, the globals are valid; the
    architecture is the one given, or [android-arm64] when none is; and
    auto-detection is on whenever no architecture is given, whatever the
    flag, and otherwise as the flag says. *)
Theorem configure_globals env args st :
  wp (configure env args)
    (fun res st' =>
       res = Ret tt ->
       valid_config env (globals st')
       /\ FRIDA_ARCH (globals st')
          = Some (if truthy (frida_arch args) then fmt (frida_arch args)
                  else "android-arm64")
       /\ AUTO_DETECT_ARCH (globals st')
          = (if truthy (frida_arch args) then auto_detect_arch args
             else true)
       /\ files st' = files st)
    st.
Proof.
  destruct st as [g fs t l].
  wp_run.
  all: intros Hres; try discriminate Hres.
  all: cbn [globals files FRIDA_ARCH AUTO_DETECT_ARCH].
  all: split; [split; [split; reflexivity|]|].
  all: try (eexists; split; [reflexivity|]; try reflexivity).
  - destruct (frida_arch args) as [a|]; [|discriminate].
    eexists. split; [reflexivity|]. assumption.
  - destruct (frida_arch args) as [a|]; [|discriminate].
    cbn [fmt default from_option id]. repeat split; reflexivity.
  - repeat split; try reflexivity.
    now destruct (auto_detect_arch args).
Qed.

(** X4. A deployment keeps valid globals valid, however it ends. *)
Theorem setup_keeps_globals_valid env st serial auto :
  valid_config env (globals st) ->
  wp (setup_frida_server env serial auto)
    (fun _ st' => valid_config env (globals st'))
    st.
Proof.
  destruct st as [g fs t l]. cbn [globals].
  intros [[Hu Hx] Ha].
  repeat (rewrite ?Hu, ?Hx; wp_step).
  all: cbn [globals].
  all: first
    [ now (split; [split|])
    | split; [split; reflexivity|];
      eexists; split; [reflexivity | apply map_abi_valid] ].
Qed.

Lemma setup_keeps_globals_valid_witness :
  let env := Scenario.workstation Scenario.respond_ok "2" "0" in
  let st := Scenario.ready in
  valid_config env (globals st)
  /\ wp (setup_frida_server env "emulator-5554" true)
       (fun _ st' => valid_config env (globals st'))
       st.
Proof.
  intros env st.
  assert (Hv : valid_config env (globals st)).
  { split; [split; reflexivity|]. exists "android-arm64". now split. }
  split; [exact Hv|].
  apply (setup_keeps_globals_valid env st "emulator-5554" true Hv).
Defined.

(** ** What a deployment runs, and in which order *)

(** X5. The server is launched only after the artifact was fetched,
    unpacked and pushed with exit status 0; the launch without [su] is run
    exactly when the launch with [su] exits non-zero. *)
Theorem launch_follows_push env st serial auto :
  wp (setup_frida_server env serial auto)
    (fun _ st' =>
       (In (su_launch_command serial) (commands (new_events st st')) ->
        exists url xz body pushed,
          In (Urlretrieve url xz (Fetched body)) (new_events st st')
          /\ is_Some (unxz env body)
          /\ In (Exec (push_command env serial) pushed) (new_events st st')
          /\ returncode pushed = 0)
       /\ (In (launch_command serial) (commands (new_events st st')) <->
           exists r, In (Exec (su_launch_command serial) r)
                       (new_events st st')
                     /\ returncode r <> 0))
    st.
Proof.
  destruct st as [g fs t l].
  wp_run.
  all: wp_log; unfold_commands.
  all: split;
    [ intros Hin; cbn [commands] in Hin; in_cases_cbv Hin;
      match goal with
      | Hp : (returncode _ =? 0) = true, Hz : unxz _ _ = Some _ |- _ =>
          apply Z.eqb_eq in Hp;
          eexists _, _, _, _;
          split; [in_here|];
          split; [rewrite Hz; eauto|];
          split; [in_here | exact Hp]
      end
    | split;
      [ intros Hin; cbn [commands] in Hin; in_cases_cbv Hin;
        match goal with
        | Hs : (returncode (respond _ _ ["adb"; "-s"; _; "shell"; ?c]) =? 0)
               = false |- _ =>
            apply Z.eqb_neq in Hs; eexists; split; [in_here | exact Hs]
        end
      | intros (r & Hin & Hr); in_cases_cbv Hin;
        first
          [ in_here
          | injection Hin as <-;
            match goal with
            | Hs : (returncode ?x =? 0) = true, Hn : returncode ?x <> 0 |- _ =>
                apply Z.eqb_eq in Hs; contradiction
            end ] ] ].
Qed.


(** ** Module 1: what is run, and when *)



(** Module 1 as the dispatcher sees it. *)
Lemma push_burp_cert_summary env st :
  wp (push_burp_cert env)
    (fun res st' =>
       not_exit res
       /\ (In ["adb"; "reboot"] (commands (new_events st st')) ->
           exists hashed pushed chmoded,
             let name := hash_name_of hashed in
             In (Exec hash_command hashed) (new_events st st')
             /\ returncode hashed = 0
             /\ In (Exec ["adb"; "push"; name;
                          DEVICE_CERT_DIR +:+ "/" +:+ name]
                      pushed) (new_events st st')
             /\ returncode pushed = 0
             /\ In (Exec ["adb"; "shell";
                          "chmod 644 " +:+ DEVICE_CERT_DIR +:+ "/" +:+ name]
                      chmoded) (new_events st st')
             /\ returncode chmoded = 0))
    st.
Proof.
  destruct st as [g fs t l]. unfold not_exit.
  wp_run.
  all: wp_log.
  all: split; [intros status; discriminate|].
  all: intros Hin; cbn [commands] in Hin; in_cases Hin.
  all: repeat match goal with
       | H : (returncode _ =? 0) = true |- _ => apply Z.eqb_eq in H
       end.
  all: eexists _, _, _; cbn zeta.
  all: split; [in_here|]; split; [eassumption|].
  all: split; [in_here|]; split; [eassumption|].
  all: split; [in_here|]; eassumption.
Qed.

(** X8. The device is rebooted only when the certificate was converted,
    named after its hash, pushed to the trust store under that name and
    made readable there, each with exit status 0. *)
Theorem reboot_follows_install env st :
  wp (push_burp_cert env)
    (fun _ st' =>
       In ["adb"; "reboot"] (commands (new_events st st')) ->
       exists hashed pushed chmoded,
         let name := hash_name_of hashed in
         In (Exec hash_command hashed) (new_events st st')
         /\ returncode hashed = 0
         /\ In (Exec ["adb"; "push"; name; DEVICE_CERT_DIR +:+ "/" +:+ name]
                  pushed) (new_events st st')
         /\ returncode pushed = 0
         /\ In (Exec ["adb"; "shell";
                      "chmod 644 " +:+ DEVICE_CERT_DIR +:+ "/" +:+ name]
                  chmoded) (new_events st st')
         /\ returncode chmoded = 0)
    st.
Proof.
  eapply Rules.wp_mono; [apply push_burp_cert_summary|].
  now intros res st' [_ H].
Qed.

(** ** Reading the log *)

Module LogFacts.

Lemma commands_app l1 l2 : commands (l1 ++ l2) = commands l1 ++ commands l2.
Proof.
  induction l1 as [|e l1 IH]; [reflexivity|].
  destruct e; cbn [app commands]; now rewrite ?IH.
Qed.

Lemma deployed_app l1 l2 : deployed (l1 ++ l2) = deployed l1 ++ deployed l2.
Proof.
  induction l1 as [|e l1 IH]; [reflexivity|].
  destruct e as [m| | | |]; try destruct m; cbn [app deployed];
    now rewrite ?IH.
Qed.

Lemma answers_app l1 l2 : answers (l1 ++ l2) = answers l1 ++ answers l2.
Proof.
  induction l1 as [|e l1 IH]; [reflexivity|].
  destruct e; cbn [app answers]; now rewrite ?IH.
Qed.

Lemma downloads_app l1 l2 :
  downloads (l1 ++ l2) = (downloads l1 + downloads l2)%nat.
Proof. unfold downloads. now rewrite List.filter_app, length_app. Qed.

Lemma entries_quiet devices : forall i,
  commands (entries i devices) = []
  /\ deployed (entries i devices) = []
  /\ answers (entries i devices) = []
  /\ downloads (entries i devices) = 0%nat.
Proof.
  induction devices as [|d devices IH]; intros i; [now repeat split|].
  cbn [entries commands deployed answers]. apply (IH (S i)).
Qed.

End LogFacts.

(** [print_entries] prints the entries and nothing else. *)
Lemma wp_print_entries_exact devices :
  forall i (Q : result unit -> State -> Prop) g fs t l,
  Q (Ret tt) (mkState g fs t (l ++ entries i devices)) ->
  wp (print_entries i devices) Q (mkState g fs t l).
Proof.
  induction devices as [|d devices IH]; intros i Q g fs t l HQ;
    cbn [print_entries entries] in *.
  - apply Rules.wp_ret. now rewrite app_nil_r in HQ.
  - apply Rules.wp_bind, Rules.wp_print. apply IH.
    now rewrite <- app_assoc.
Qed.

(** ** Device listing and selection, further *)

Module TokenFacts.

Lemma split_tokens s : Forall is_token (PyStr.split s).
Proof.
  induction s as [|c s IH]; cbn [PyStr.split]; [constructor|].
  destruct (PyStr.isspace c) eqn:Hc; [exact IH|].
  destruct s as [|c' s'].
  - constructor; [|constructor]. split; [discriminate|].
    cbn [PyStr.forallb_str]. now rewrite Hc.
  - destruct (PyStr.isspace c') eqn:Hc'.
    + constructor; [|exact IH]. split; [discriminate|].
      cbn [PyStr.forallb_str]. now rewrite Hc.
    + destruct (PyStr.split (String c' s')) as [|w ws] eqn:Hs.
      * constructor; [|constructor]. split; [discriminate|].
        cbn [PyStr.forallb_str]. now rewrite Hc.
      * inversion IH as [|? ? [Hw1 Hw2] Hws]; subst.
        constructor; [|exact Hws]. split; [discriminate|].
        cbn [PyStr.forallb_str]. now rewrite Hc, Hw2.
Qed.

End TokenFacts.

(** X9. The device list is what the listing says: of the lines after the
    first, those whose second token is [device], each giving its first
    token, in order; and every serial in it is a token, not empty and
    free of whitespace. *)
Theorem parse_devices_spec out :
  parse_devices out = listed_devices out
  /\ Forall is_token (parse_devices out).
Proof.
  split; [apply parse_devices_listed|].
  rewrite parse_devices_listed. unfold listed_devices.
  apply Forall_forall. intros d Hd.
  apply list_elem_of_In, in_map_iff in Hd as (line & <- & Hline).
  apply list_elem_of_In, list_elem_of_filter in Hline as [Hstate _].
  unfold state_token in Hstate. unfold serial_token.
  pose proof (TokenFacts.split_tokens (PyStr.strip line)) as Htok.
  destruct (PyStr.split (PyStr.strip line)) as [|w ws]; [discriminate|].
  cbn [head default from_option id]. now inversion Htok.
Qed.


(** ** The loop over the selected devices, further *)

Lemma wp_conj {A} (m : M A) (Q1 Q2 : result A -> State -> Prop) st :
  wp m Q1 st -> wp m Q2 st -> wp m (fun r s => Q1 r s /\ Q2 r s) st.
Proof. unfold wp. auto. Qed.

(** One deployment, as the loop sees it. *)
Lemma setup_summary env st serial auto :
  wp (setup_frida_server env serial auto)
    (fun res st' =>
       not_exit res
       /\ exists new,
           log st' = log st ++ new
           /\ deployed new = [serial] /\ answers new = []
           /\ (downloads new <= 1)%nat
           /\ forall cmd, In cmd (commands new) ->
                          exists rest, cmd = adb serial rest)
    st.
Proof.
  destruct st as [g fs t l]. unfold not_exit.
  wp_run.
  all: cbn [log]; rewrite <- ?app_assoc; cbn [app].
  all: split; [intros status; discriminate|].
  all: eexists; split; [reflexivity|].
  all: split; [reflexivity|]; split; [reflexivity|].
  all: split; [cbv; lia|].
  all: unfold_commands.
  all: intros cmd Hin; cbn [commands In] in Hin.
  all: repeat (destruct Hin as [<-|Hin]; [eexists; reflexivity|]).
  all: contradiction.
Qed.

(** X10. Every command a deployment runs addresses the device it is for,
    and a deployment asks the operator nothing. *)
Theorem setup_addresses_its_device env st serial auto :
  wp (setup_frida_server env serial auto)
    (fun _ st' =>
       answers (new_events st st') = []
       /\ forall cmd, In cmd (commands (new_events st st')) ->
                      exists rest, cmd = adb serial rest)
    st.
Proof.
  eapply Rules.wp_mono; [apply setup_summary|].
  intros res st' (_ & new & Hl & _ & Ha & _ & Hc).
  unfold new_events. rewrite Hl, drop_app_length. auto.
Qed.

(** The loop: devices are taken in order, each with at most one download
    and only commands of its own, until one raises. *)
Lemma loop_order env selected : forall st,
  wp (for_each selected (loop_body env))
    (fun res st' =>
       not_exit res
       /\ exists new,
           log st' = log st ++ new
           /\ answers new = []
           /\ (exists rest, selected = deployed new ++ rest)
           /\ (res = Ret tt -> deployed new = selected)
           /\ (downloads new <= length (deployed new))%nat
           /\ forall cmd, In cmd (commands new) ->
                          exists s, In s selected /\ targets s cmd)
    st.
Proof.
  induction selected as [|serial selected IH]; intros st.
  - unfold wp, not_exit. cbn. split; [discriminate|].
    exists []. rewrite app_nil_r. repeat split; eauto; contradiction.
  - cbn [for_each]. apply Rules.wp_bind. unfold loop_body at 1.
    destruct st as [g fs t l].
    apply Rules.wp_bind, Rules.wp_get_globals. cbn beta iota.
    apply Rules.wp_bind.
    eapply Rules.wp_mono; [apply setup_summary|].
    intros res [g1 fs1 t1 l1] (Hne & new1 & Hl1 & Hd1 & Ha1 & Hw1 & Hc1).
    cbn [log] in Hl1. subst l1.
    destruct res as [[]|e].
    2:{ split; [exact Hne|]. exists new1. cbn [log].
        rewrite Hd1. split; [reflexivity|]. split; [exact Ha1|].
        split; [now exists selected|]. split; [discriminate|].
        split; [exact Hw1|].
        intros cmd Hin. exists serial. split; [now left|].
        left. now apply Hc1. }
    assert (Hstep : forall t' tail,
      (forall cmd, In cmd (commands tail) -> targets serial cmd) ->
      deployed tail = [] -> answers tail = [] -> downloads tail = 0%nat ->
      wp (for_each selected (loop_body env))
        (fun res st' =>
           not_exit res
           /\ exists new,
               log st' = l ++ new
               /\ answers new = []
               /\ (exists rest, serial :: selected = deployed new ++ rest)
               /\ (res = Ret tt -> deployed new = serial :: selected)
               /\ (downloads new <= length (deployed new))%nat
               /\ forall cmd, In cmd (commands new) ->
                              exists s, In s (serial :: selected)
                                        /\ targets s cmd)
        (mkState g1 fs1 t' ((l ++ new1) ++ tail))).
    { intros t' tail Hct Hdt Hat Hwt.
      eapply Rules.wp_mono; [apply IH|].
      intros res [g2 fs2 t2 l2]
        (Hne2 & new2 & Hl2 & Ha2 & (rest & Hr) & Hd2 & Hw2 & Hc2).
      cbn [log] in *. subst l2. split; [exact Hne2|].
      exists (new1 ++ tail ++ new2). split; [now rewrite <- !app_assoc|].
      rewrite !LogFacts.answers_app, !LogFacts.deployed_app,
        !LogFacts.downloads_app, !LogFacts.commands_app,
        Ha1, Hat, Ha2, Hd1, Hdt, Hwt.
      cbn [app length]. repeat split.
      - exists rest. now rewrite Hr at 1.
      - intros Hres. now rewrite (Hd2 Hres).
      - lia.
      - intros cmd Hin. apply in_app_or in Hin as [Hin|Hin];
          [|apply in_app_or in Hin as [Hin|Hin]].
        + exists serial. split; [now left|]. left. now apply Hc1.
        + exists serial. split; [now left|]. now apply Hct.
        + destruct (Hc2 cmd Hin) as (s & Hs & Ht). exists s.
          split; [now right|exact Ht]. }
    do 4 wp_step.
    destruct (which env t1 "frida-ps"); wp_run; cbn beta iota; cbn [log];
      rewrite <- (app_assoc (l ++ new1)); apply Hstep; try reflexivity.
    + intros cmd [<-|[]]. now right.
    + intros cmd [].
Qed.
Lemma entries_run_nothing devices : forall i cmd r,
  ~ In (Exec cmd r) (entries i devices).
Proof.
  induction devices as [|d devices IH]; intros i cmd r; cbn [entries In];
    [tauto|].
  intros [H|H]; [discriminate|]. exact (IH _ _ _ H).
Qed.

Lemma exec_in_commands cmd r l : In (Exec cmd r) l -> In cmd (commands l).
Proof.
  induction l as [|e l IH]; [tauto|]. intros [->|H]; [now left|].
  destruct e; cbn [commands]; try right; auto.
Qed.

(** The selection step as the rest of module 2 sees it. *)
Lemma choose_device_summary env st :
  wp (choose_device env)
    (fun res st' =>
       let listing := respond env (now st) ["adb"; "devices"] in
       globals st' = globals st /\ files st' = files st /\ not_exit res
       /\ (forall selected, res = Ret selected ->
             selected = [] \/ selected = listed_devices (stdout listing)
             \/ exists d, selected = [d]
                          /\ In d (listed_devices (stdout listing)))
       /\ exists new,
           log st' = log st ++ new
           /\ commands new = [["adb"; "devices"]]
           /\ (forall cmd r, In (Exec cmd r) new -> r = listing)
           /\ deployed new = [] /\ downloads new = 0%nat
           /\ (length (answers new) <= 1)%nat
           /\ (res = Ret [] \/ (exists e, res = Raise e) \/
               length (answers new) = 1%nat))
    st.
Proof.
  destruct st as [g fs t l]. unfold choose_device, not_exit.
  cbn zeta. cbn [now]. rewrite <- parse_devices_listed.
  do 4 wp_step.
  destruct (returncode (respond env t ["adb"; "devices"]) =? 0).
  2:{ cbn [negb]. cbn [globals files log now].
      do 4 (split; [easy|]).
      eexists. split; [now rewrite <- app_assoc|].
      split; [reflexivity|]. split.
      { intros cmd r Hin. cbn [In] in Hin.
        repeat (destruct Hin as [Hin|Hin]; [try discriminate; congruence|]).
        contradiction. }
      repeat split; cbn; eauto. }
  cbn [negb].
  destruct (parse_devices (stdout (respond env t ["adb"; "devices"])))
    as [|d0 rest].
  { wp_run. cbn [globals files log now]. do 3 (split; [easy|]).
    split; [intros selected [= <-]; now left|].
    eexists. split; [now rewrite <- !app_assoc|].
    split; [reflexivity|]. split.
    { intros cmd r Hin. cbn [In] in Hin.
      repeat (destruct Hin as [Hin|Hin]; [try discriminate; congruence|]).
      contradiction. }
    repeat split; cbn; eauto. }
  do 3 wp_step. apply wp_print_entries_exact. cbn beta iota.
  do 4 wp_step. cbn zeta.
  destruct (LogFacts.entries_quiet (d0 :: rest) 1) as (Ec & Ed & Ea & Ew).
  assert (Hlog : forall m,
    exists new,
      ((((((l ++ [Print MsgCheckingDevices]) ++
           [Exec ["adb"; "devices"] (respond env t ["adb"; "devices"])]) ++
          [Print MsgDevicesFound]) ++ entries 1 (d0 :: rest)) ++
        [Print MsgAllDevicesOption]) ++ [Input (typed env (S t))]) ++
      map Print m
      = l ++ new
      /\ commands new = [["adb"; "devices"]]
      /\ (forall cmd r, In (Exec cmd r) new ->
            r = respond env t ["adb"; "devices"])
      /\ deployed new = deployed (map Print m)
      /\ downloads new = downloads (map Print m)
      /\ answers new = [typed env (S t)]).
  { intros m. eexists. split; [rewrite <- !app_assoc; reflexivity|].
    rewrite !LogFacts.commands_app, !LogFacts.deployed_app,
      !LogFacts.downloads_app, !LogFacts.answers_app, Ec, Ed, Ea, Ew.
    split; [now induction m|].
    split; [|split; [reflexivity|split; [reflexivity|now induction m]]].
    intros cmd r Hin.
    repeat (apply in_app_or in Hin as [Hin|Hin]).
    - destruct Hin as [?|[]]; discriminate.
    - destruct Hin as [?|[]]; congruence.
    - destruct Hin as [?|[]]; discriminate.
    - now apply entries_run_nothing in Hin.
    - destruct Hin as [?|[]]; discriminate.
    - destruct Hin as [?|[]]; discriminate.
    - apply in_map_iff in Hin as (? & ? & _). discriminate. }
  wp_run.
  all: cbn [globals files log now]; do 3 (split; [easy|]).
  all: split;
    [ intros selected Hsel; try discriminate; injection Hsel as <-;
      first [ now left | right; now left
            | right; right; eexists; split; [reflexivity|];
              eapply list_elem_of_In, list_elem_of_lookup_2; eassumption ]
    | ].
  all: first
    [ destruct (Hlog []) as (new & E & Hc & Hr & Hd & Hw & Ha);
      cbn [map] in E; rewrite app_nil_r in E; exists new; split; [exact E|]
    | destruct (Hlog [MsgInvalidChoice])
        as (new & E & Hc & Hr & Hd & Hw & Ha);
      exists new; split; [exact E|] ].
  all: split; [exact Hc|]; split; [exact Hr|].
  all: rewrite Hd, Hw, Ha; cbn; repeat split; eauto.
Qed.


(** X12. A device that [choose_device] returns is one the listing
    reports in state [device]: the selection is empty, the whole list in
    its order, or one device of the list. *)
Theorem choose_device_selects_listed env st :
  wp (choose_device env)
    (fun res _ =>
       forall selected, res = Ret selected ->
         let listed :=
           listed_devices
             (stdout (respond env (now st) ["adb"; "devices"])) in
         selected = [] \/ selected = listed
         \/ exists d, selected = [d] /\ In d listed)
    st.
Proof.
  eapply Rules.wp_mono; [apply choose_device_summary|].
  intros res st' (_ & _ & _ & Hsel & _). exact Hsel.
Qed.

(** X13. What [choose_device] returns when the listing command
    succeeds: nothing when no device is listed; the whole list for the
    choice [0]; the device at the index for a decimal choice within
    range; nothing for a choice out of range or not made of digits; and
    [ValueError] for a choice made of digits that [int] does not take. *)
Theorem choose_device_by_choice env st :
  returncode (respond env (now st) ["adb"; "devices"]) = 0 ->
  wp (choose_device env)
    (fun res st' =>
       let devices :=
         listed_devices (stdout (respond env (now st) ["adb"; "devices"])) in
       let choice := PyStr.strip (typed env (S (now st))) in
       match devices with
       | [] => res = Ret []
       | _ :: _ =>
           if String.eqb choice "0" then res = Ret devices
           else if PyStr.isdigit choice then
             match PyStr.int (int_max_str_digits env) choice with
             | None => res = Raise ValueError
             | Some n =>
                 if (1 <=? n) && (n <=? Z.of_nat (length devices)) then
                   exists d, devices !! Z.to_nat (n - 1) = Some d
                             /\ res = Ret [d]
                 else res = Ret []
             end
           else res = Ret []
       end)
    st.
Proof. exact (choose_device_spec env st). Qed.

Lemma choose_device_by_choice_witness :
  let env := Scenario.workstation Scenario.respond_ok "2" "2" in
  let st := Scenario.ready in
  returncode (respond env (now st) ["adb"; "devices"]) = 0
  /\ wp (choose_device env) (fun res _ => res = Ret ["ZX1G22"]) st.
Proof.
  intros env st. split; [reflexivity|].
  eapply Rules.wp_mono;
    [apply (choose_device_by_choice env st); reflexivity|].
  intros res st'. vm_compute.
  intros (d & Hd & ->). now injection Hd as <-.
Defined.

(** ** Module 2 as a whole *)

Lemma not_exit_raise {A B} (e : exn) :
  not_exit (@Raise A e) -> not_exit (@Raise B e).
Proof. intros H status [= ->]. now apply (H status). Qed.

Lemma targets_not_listing s : ~ targets s ["adb"; "devices"].
Proof. intros [[rest H]|H]; discriminate. Qed.

(** Under the conditions of [setup_downloads_once] the loop deploys to
    every device of the selection, with one download each. *)
Lemma loop_success env selected :
  (forall t s, returncode (respond env t (getprop_command s)) = 0) ->
  (forall t, mkdir_ok env t = true) ->
  forall st, configured env (globals st) ->
  wp (for_each selected (loop_body env))
    (fun res st' =>
       res = Ret tt
       /\ exists new, log st' = log st ++ new
                      /\ downloads new = length selected)
    st.
Proof.
  intros Hg Hm.
  induction selected as [|serial selected IH]; intros st Hc.
  - unfold wp. cbn. split; [reflexivity|]. exists []. now rewrite app_nil_r.
  - cbn [for_each]. apply Rules.wp_bind. unfold loop_body at 1.
    destruct st as [g fs t l].
    apply Rules.wp_bind, Rules.wp_get_globals. cbn beta iota.
    apply Rules.wp_bind.
    eapply Rules.wp_mono; [apply setup_downloads_once; auto|].
    intros res [g1 fs1 t1 l1] (-> & Hc1 & new1 & Hl1 & Hd1).
    cbn [log globals] in *. subst l1.
    assert (Hstep : forall t' tail, downloads tail = 0%nat ->
      wp (for_each selected (loop_body env))
        (fun res st' =>
           res = Ret tt
           /\ exists new, log st' = l ++ new
                          /\ downloads new = length (serial :: selected))
        (mkState g1 fs1 t' ((l ++ new1) ++ tail))).
    { intros t' tail Hw.
      eapply Rules.wp_mono; [apply IH; exact Hc1|].
      intros res [g2 fs2 t2 l2] (-> & new2 & Hl2 & Hd2).
      cbn [log] in *. subst l2. split; [reflexivity|].
      exists (new1 ++ tail ++ new2). split; [now rewrite <- !app_assoc|].
      rewrite !LogFacts.downloads_app, Hd1, Hw, Hd2. reflexivity. }
    do 4 wp_step.
    destruct (which env t1 "frida-ps"); wp_run; cbn beta iota; cbn [log];
      rewrite <- (app_assoc (l ++ new1)); now apply Hstep.
Qed.

(** Module 2 as the dispatcher sees it. *)
Lemma run_frida_server_summary env st :
  wp (run_frida_server env)
    (fun res st' =>
       let listing := respond env (S (now st)) ["adb"; "devices"] in
       let listed := listed_devices (stdout listing) in
       not_exit res
       /\ exists new,
           log st' = log st ++ new
           /\ (length (answers new) <= 1)%nat
           /\ (forall r, In (Exec ["adb"; "devices"] r) new -> r = listing)
           /\ ((exists rest, listed = deployed new ++ rest)
               \/ exists d, deployed new = [d] /\ In d listed)
           /\ (downloads new <= length (deployed new))%nat
           /\ forall cmd, In cmd (commands new) ->
                cmd = ["adb"; "devices"]
                \/ exists s, In s listed /\ targets s cmd)
    st.
Proof.
  destruct st as [g fs t l]. unfold run_frida_server. cbn zeta. cbn [now log].
  do 4 wp_step.
  destruct (which env t "adb"); cbn [negb].
  2:{ wp_run. cbn [log]. split; [intros s; discriminate|].
      eexists. split; [now rewrite <- app_assoc|].
      split; [cbn; lia|]. split; [intros r [H|[H|[]]]; discriminate|].
      split; [left; now eexists|]. split; [cbn; lia|]. intros cmd []. }
  apply Rules.wp_bind.
  eapply Rules.wp_mono; [apply choose_device_summary|].
  intros res [g1 fs1 t1 l1]
    (_ & _ & Hne & Hsel & newc & Hl & Hc & Hr & Hd & Hw & Ha & _).
  cbn [log now] in *. subst l1.
  assert (Hidle : forall tail : list message,
    exists new,
      ((l ++ [Print MsgFridaStart]) ++ newc) ++ map Print tail = l ++ new
      /\ (length (answers new) <= 1)%nat
      /\ (forall r, In (Exec ["adb"; "devices"] r) new ->
            r = respond env (S t) ["adb"; "devices"])
      /\ deployed new = deployed (map Print tail)
      /\ downloads new = 0%nat
      /\ forall cmd, In cmd (commands new) -> cmd = ["adb"; "devices"]).
  { intros tail. eexists. split; [rewrite <- !app_assoc; reflexivity|].
    cbn [app answers deployed commands].
    rewrite !LogFacts.answers_app, !LogFacts.deployed_app,
      !LogFacts.commands_app, Hc, Hd.
    change (downloads (Print MsgFridaStart :: newc ++ map Print tail))
      with (downloads (newc ++ map Print tail)).
    rewrite LogFacts.downloads_app, Hw.
    assert (Ht : answers (map Print tail) = []
                 /\ commands (map Print tail) = []
                 /\ downloads (map Print tail) = 0%nat)
      by (now induction tail).
    destruct Ht as (-> & -> & ->). rewrite app_nil_r.
    repeat split; try lia; try reflexivity.
    - intros r [H|H]; [discriminate|].
      apply in_app_or in H as [H|H]; [exact (Hr _ _ H)|].
      apply in_map_iff in H as (? & ? & _). discriminate.
    - intros cmd [<-|[]]. reflexivity. }
  destruct res as [selected|e].
  2:{ split; [exact (not_exit_raise e Hne)|].
      destruct (Hidle []) as (new & E & H1 & H2 & H3 & H4 & H5).
      cbn [map] in E. rewrite app_nil_r in E.
      exists new. split; [exact E|]. rewrite H3, H4. cbn.
      repeat split; auto. left. now eexists. }
  destruct selected as [|d0 rest].
  { wp_run. split; [intros s; discriminate|].
    destruct (Hidle []) as (new & E & H1 & H2 & H3 & H4 & H5).
    cbn [map] in E. rewrite app_nil_r in E.
    exists new. split; [exact E|]. rewrite H3, H4. cbn.
    repeat split; auto. left. now eexists. }
  apply Rules.wp_bind. set (selected := d0 :: rest) in *.
  eapply Rules.wp_mono; [apply loop_order|].
  intros res [g2 fs2 t2 l2]
    (Hne2 & newl & Hl2 & Ha2 & (rest' & Hpre) & Hall & Hw2 & Hc2).
  cbn [log] in *. subst l2.
  assert (Hin : forall s, In s selected ->
            In s (listed_devices
                    (stdout (respond env (S t) ["adb"; "devices"])))).
  { intros s Hs.
    destruct (Hsel selected eq_refl) as [E|[E|(d & E & Hd')]].
    - discriminate.
    - now rewrite <- E.
    - rewrite E in Hs. destruct Hs as [<-|[]]. exact Hd'. }
  assert (Hfinal : forall tail : list message,
    exists new,
      (((l ++ [Print MsgFridaStart]) ++ newc) ++ newl) ++ map Print tail
      = l ++ new
      /\ (length (answers new) <= 1)%nat
      /\ (forall r, In (Exec ["adb"; "devices"] r) new ->
            r = respond env (S t) ["adb"; "devices"])
      /\ deployed new = deployed newl ++ deployed (map Print tail)
      /\ (downloads new <= length (deployed newl))%nat
      /\ forall cmd, In cmd (commands new) ->
           cmd = ["adb"; "devices"]
           \/ exists s,
               In s (listed_devices
                       (stdout (respond env (S t) ["adb"; "devices"])))
               /\ targets s cmd).
  { intros tail. eexists. split; [rewrite <- !app_assoc; reflexivity|].
    cbn [app answers deployed commands].
    change (downloads (Print MsgFridaStart :: newc ++ newl ++ map Print tail))
      with (downloads (newc ++ newl ++ map Print tail)).
    rewrite !LogFacts.answers_app, !LogFacts.deployed_app,
      !LogFacts.commands_app, !LogFacts.downloads_app, Hc, Hd, Hw, Ha2.
    assert (Ht : answers (map Print tail) = []
                 /\ commands (map Print tail) = []
                 /\ downloads (map Print tail) = 0%nat)
      by (now induction tail).
    destruct Ht as (-> & -> & ->). rewrite !app_nil_r.
    repeat split; try lia; try reflexivity.
    - intros r [H|H]; [discriminate|].
      apply in_app_or in H as [H|H]; [exact (Hr _ _ H)|].
      apply in_app_or in H as [H|H].
      + apply exec_in_commands, Hc2 in H as (s & _ & H).
        now apply targets_not_listing in H.
      + apply in_map_iff in H as (? & ? & _). discriminate.
    - intros cmd [<-|H]; [now left|]. right.
      destruct (Hc2 cmd H) as (s & Hs & Ht). exists s. split; auto. }
  assert (Hshape :
    (exists rest,
       listed_devices (stdout (respond env (S t) ["adb"; "devices"]))
       = deployed newl ++ rest)
    \/ exists d, deployed newl = [d]
                 /\ In d (listed_devices
                            (stdout (respond env (S t) ["adb"; "devices"])))).
  { destruct (Hsel selected eq_refl) as [E|[E|(d & E & Hd')]].
    - discriminate.
    - left. exists rest'. now rewrite <- E.
    - rewrite E in Hpre. destruct (deployed newl) as [|d1 [|d2 ds]].
      + left. now eexists.
      + right. exists d. injection Hpre as <- _. auto.
      + discriminate. }
  destruct res as [[]|e].
  - wp_run. cbn [log]. split; [intros s; discriminate|].
    destruct (Hfinal [MsgAllDone]) as (new & E & H1 & H2 & H3 & H4 & H5).
    exists new. split; [exact E|]. rewrite H3. cbn [map deployed].
    rewrite app_nil_r. auto 10.
  - split; [exact Hne2|].
    destruct (Hfinal []) as (new & E & H1 & H2 & H3 & H4 & H5).
    cbn [map] in E. rewrite app_nil_r in E.
    exists new. split; [exact E|]. rewrite H3. cbn [map deployed].
    rewrite app_nil_r. auto 10.
Qed.

(** X14. What module 2 does to devices follows the listing it
    obtained: the devices deployed to are an initial part of the devices
    listed in state [device], in the listing's order, or one of them;
    every command other than the listing addresses a listed device; and
    the operator is asked at most one question. *)
Theorem run_frida_server_follows_listing env st :
  wp (run_frida_server env)
    (fun res st' =>
       let new := new_events st st' in
       (length (answers new) <= 1)%nat
       /\ forall r, In (Exec ["adb"; "devices"] r) new ->
            let listed := listed_devices (stdout r) in
            ((exists rest, listed = deployed new ++ rest)
             \/ exists d, deployed new = [d] /\ In d listed)
            /\ (downloads new <= length (deployed new))%nat
            /\ forall cmd, In cmd (commands new) ->
                 cmd = ["adb"; "devices"]
                 \/ exists s, In s listed /\ targets s cmd)
    st.
Proof.
  eapply Rules.wp_mono; [apply run_frida_server_summary|].
  intros res st' (_ & new & Hl & Ha & Hr & Hs & Hw & Hc).
  unfold new_events. rewrite Hl, drop_app_length.
  split; [exact Ha|]. intros r Hin. rewrite (Hr r Hin). auto.
Qed.

(** X15. Without [adb] module 2 says so and returns: it runs no
    command, asks nothing, and leaves globals and files as they were. *)
Theorem run_frida_server_needs_adb env st :
  which env (now st) "adb" = false ->
  wp (run_frida_server env)
    (fun res st' =>
       res = Ret tt
       /\ new_events st st' = [Print MsgFridaStart; Print MsgNoAdb]
       /\ globals st' = globals st /\ files st' = files st)
    st.
Proof.
  destruct st as [g fs t l]. cbn [now]. intros Hadb.
  unfold run_frida_server. do 4 wp_step. rewrite Hadb. wp_run.
  wp_log. auto.
Qed.

Lemma run_frida_server_needs_adb_witness :
  let env := without_tools ["adb"]
               (Scenario.workstation Scenario.respond_ok "2" "0") in
  let st := Scenario.ready in
  which env (now st) "adb" = false
  /\ wp (run_frida_server env)
       (fun res st' =>
          res = Ret tt
          /\ new_events st st' = [Print MsgFridaStart; Print MsgNoAdb]
          /\ globals st' = globals st /\ files st' = files st)
       st.
Proof.
  intros env st. split; [reflexivity|].
  apply (run_frida_server_needs_adb env st). reflexivity.
Defined.

(** X16. When every ABI query and every creation of the local
    directory succeed and the globals are coherent, module 2 asks the
    artifact host once for each device it deploys to; and once a
    deployment has begun, it deploys to the whole selection and ends by
    reporting completion. *)
Theorem run_frida_server_one_download_each env st :
  (forall t s, returncode (respond env t (getprop_command s)) = 0) ->
  (forall t, mkdir_ok env t = true) ->
  configured env (globals st) ->
  wp (run_frida_server env)
    (fun res st' =>
       let new := new_events st st' in
       downloads new = length (deployed new)
       /\ (deployed new <> [] ->
           res = Ret tt /\ last new = Some (Print MsgAllDone)))
    st.
Proof.
  intros Hg Hm Hcfg. destruct st as [g fs t l].
  unfold run_frida_server. cbn zeta. cbn [globals] in Hcfg.
  do 4 wp_step.
  destruct (which env t "adb"); cbn [negb].
  2:{ wp_run. wp_log. split; [reflexivity|]. intros H. now destruct H. }
  apply Rules.wp_bind.
  eapply Rules.wp_mono; [apply choose_device_summary|].
  intros res [g1 fs1 t1 l1]
    (Hg1 & _ & _ & _ & newc & Hl & _ & _ & Hd & Hw & _ & _).
  cbn [log now globals] in *. subst l1 g1.
  assert (Hidle : forall tail : list message,
    downloads (drop (length l)
                 (((l ++ [Print MsgFridaStart]) ++ newc) ++ map Print tail))
    = 0%nat
    /\ deployed (drop (length l)
                   (((l ++ [Print MsgFridaStart]) ++ newc) ++ map Print tail))
       = deployed (map Print tail)).
  { intros tail. rewrite <- !app_assoc, drop_app_length.
    cbn [app deployed].
    change (downloads (Print MsgFridaStart :: newc ++ map Print tail))
      with (downloads (newc ++ map Print tail)).
    rewrite LogFacts.downloads_app, LogFacts.deployed_app, Hd, Hw.
    split; [now induction tail|reflexivity]. }
  destruct res as [selected|e].
  2:{ unfold new_events. cbn [log].
      destruct (Hidle []) as [H1 H2]. cbn [map] in *.
      rewrite app_nil_r in H1, H2. rewrite H1, H2.
      split; [reflexivity|]. intros H. now destruct H. }
  destruct selected as [|d0 rest].
  { wp_run. unfold new_events. cbn [log].
    destruct (Hidle []) as [H1 H2]. cbn [map] in *.
    rewrite app_nil_r in H1, H2. rewrite H1, H2.
    split; [reflexivity|]. intros H. now destruct H. }
  apply Rules.wp_bind. set (selected := d0 :: rest) in *.
  eapply Rules.wp_mono;
    [apply wp_conj; [apply loop_order|apply (loop_success env selected Hg Hm)];
     exact Hcfg|].
  intros res [g2 fs2 t2 l2]
    ((_ & newl & Hl2 & _ & _ & Hall & _) & -> & newl' & Hl2' & Hw2).
  cbn [log] in *. subst l2. apply app_inv_head in Hl2'. subst newl'.
  specialize (Hall eq_refl).
  wp_run. unfold new_events. cbn [log].
  rewrite <- !app_assoc, drop_app_length. cbn [app deployed].
  change (downloads (Print MsgFridaStart :: newc ++ newl ++ [Print MsgAllDone]))
    with (downloads (newc ++ newl ++ [Print MsgAllDone])).
  rewrite !LogFacts.downloads_app, !LogFacts.deployed_app, Hd, Hw, Hw2, Hall.
  cbn [deployed app]. rewrite app_nil_r.
  split; [cbn; lia|]. intros _. split; [reflexivity|].
  change (Print MsgFridaStart :: newc ++ newl ++ [Print MsgAllDone])
    with ([Print MsgFridaStart] ++ newc ++ newl ++ [Print MsgAllDone]).
  rewrite !app_assoc. apply last_snoc.
Qed.

Lemma run_frida_server_one_download_each_witness :
  let env := Scenario.workstation Scenario.respond_ok "2" "0" in
  let st := Scenario.ready in
  ((forall t s, returncode (respond env t (getprop_command s)) = 0) /\
   (forall t, mkdir_ok env t = true) /\
   configured env (globals st)) /\
  wp (run_frida_server env)
    (fun res st' =>
       let new := new_events st st' in
       downloads new = length (deployed new)
       /\ (deployed new <> [] ->
           res = Ret tt /\ last new = Some (Print MsgAllDone)))
    st.
Proof.
  intros env st.
  assert (Hg : forall t s, returncode (respond env t (getprop_command s)) = 0)
    by reflexivity.
  assert (Hm : forall t, mkdir_ok env t = true) by reflexivity.
  assert (Hc : configured env (globals st)) by (split; reflexivity).
  split; [auto|].
  apply (run_frida_server_one_download_each env st Hg Hm Hc).
Defined.

(** ** The version validator *)

(** X17. [validate_frida_version] accepts exactly the versions [x.y.z]
    of three runs of decimal digits, each also when one line feed
    follows it; a version it accepts prints nothing, one it rejects is
    reported, and neither changes anything else. *)
Theorem validate_frida_version_spec version st :
  wp (validate_frida_version version)
    (fun res st' =>
       let accepted :=
         is_semver version
         \/ exists v, is_semver v /\ version = v +:+ String "010" "" in
       globals st' = globals st /\ files st' = files st
       /\ (accepted -> res = Ret true /\ new_events st st' = [])
       /\ (~ accepted ->
           res = Ret false
           /\ new_events st st' = [Print (MsgBadVersion version)]))
    st.
Proof.
  destruct st as [g fs t l]. cbn zeta.
  pose proof (VersionFacts.match_version_iff version) as Hiff.
  unfold validate_frida_version.
  destruct (Regex.match_anchored version_pattern version); cbn [negb].
  - wp_run. unfold new_events. cbn [globals files log]. rewrite drop_all.
    split; [reflexivity|]. split; [reflexivity|]. split; [now intros _|].
    intros Hn. destruct Hn. now apply Hiff.
  - wp_run. wp_log.
    split; [reflexivity|]. split; [reflexivity|]. split; [|now intros _].
    intros Ha. apply Hiff in Ha. discriminate.
Qed.

(** ** Module 3 *)

Module TextFacts.

Lemma rev_onto_app s acc : PyStr.rev_onto s acc = PyStr.rev s +:+ acc.
Proof.
  unfold PyStr.rev. revert acc.
  induction s as [|c s IH]; intros acc; cbn [PyStr.rev_onto];
    [reflexivity|].
  rewrite (IH (String c acc)), (IH (String c "")), StrFacts.app_assoc.
  reflexivity.
Qed.

Lemma rev_cons c s : PyStr.rev (String c s) = PyStr.rev s +:+ String c "".
Proof. unfold PyStr.rev at 1. cbn [PyStr.rev_onto]. apply rev_onto_app. Qed.

Lemma rev_app s t : PyStr.rev (s +:+ t) = PyStr.rev t +:+ PyStr.rev s.
Proof.
  induction s as [|c s IH].
  - now rewrite StrFacts.app_nil_l, StrFacts.app_nil_r.
  - now rewrite StrFacts.app_cons, !rev_cons, IH, StrFacts.app_assoc.
Qed.

Lemma rev_rev s : PyStr.rev (PyStr.rev s) = s.
Proof.
  induction s as [|c s IH]; [reflexivity|].
  rewrite rev_cons, rev_app, IH. reflexivity.
Qed.

Lemma forallb_rev p s :
  PyStr.forallb_str p (PyStr.rev s) = PyStr.forallb_str p s.
Proof.
  induction s as [|c s IH]; [reflexivity|].
  rewrite rev_cons, StrFacts.forallb_app, IH. cbn [PyStr.forallb_str].
  rewrite andb_true_r. apply andb_comm.
Qed.

Lemma lstrip_id s :
  PyStr.forallb_str (fun c => negb (PyStr.isspace c)) s = true ->
  PyStr.lstrip s = s.
Proof.
  destruct s as [|c s]; [reflexivity|]. cbn [PyStr.forallb_str PyStr.lstrip].
  intros [Hc _]%andb_true_iff. apply negb_true_iff in Hc. now rewrite Hc.
Qed.

(** [strip] takes the line feed off a line free of blanks. *)
Lemma strip_line v :
  PyStr.forallb_str (fun c => negb (PyStr.isspace c)) v = true ->
  PyStr.strip (v +:+ String "010" "") = v.
Proof.
  intros Hv. unfold PyStr.strip, PyStr.rstrip.
  destruct v as [|c v]; [reflexivity|].
  assert (Hc : PyStr.isspace c = false).
  { cbn [PyStr.forallb_str] in Hv. apply andb_true_iff in Hv as [Hc _].
    now apply negb_true_iff in Hc. }
  rewrite StrFacts.app_cons. cbn [PyStr.lstrip]. rewrite Hc.
  rewrite <- StrFacts.app_cons, rev_app. change (PyStr.rev (String "010" "")) with (String "010" "").
  rewrite StrFacts.app_cons, StrFacts.app_nil_l.
  change (PyStr.lstrip (String "010" (PyStr.rev (String c v))))
    with (PyStr.lstrip (PyStr.rev (String c v))).
  rewrite lstrip_id by now rewrite forallb_rev.
  apply rev_rev.
Qed.

Lemma lstrip_char_id q s :
  PyStr.forallb_str (fun c => negb (Ascii.eqb c q)) s = true ->
  PyText.lstrip_char q s = s.
Proof.
  destruct s as [|c s]; [reflexivity|].
  cbn [PyStr.forallb_str PyText.lstrip_char].
  intros [Hc _]%andb_true_iff. apply negb_true_iff in Hc. now rewrite Hc.
Qed.

(** [strip(q)] takes the quotes off a quoted word, and leaves a bare
    one. *)
Lemma strip_char_word q (quoted : bool) w :
  PyStr.forallb_str (fun c => negb (Ascii.eqb c q)) w = true ->
  let m := if quoted then String q "" else "" in
  PyText.strip_char q (m +:+ w +:+ m) = w.
Proof.
  intros Hw m. unfold PyText.strip_char.
  assert (Hl : PyText.lstrip_char q (m +:+ w +:+ m)
               = PyText.lstrip_char q (w +:+ m)).
  { subst m. destruct quoted; [|reflexivity].
    rewrite StrFacts.app_cons, StrFacts.app_nil_l.
    cbn [PyText.lstrip_char]. now rewrite Ascii.eqb_refl. }
  rewrite Hl. clear Hl.
  assert (Hr : PyText.lstrip_char q (PyStr.rev (PyText.lstrip_char q (w +:+ m)))
               = PyStr.rev w).
  { destruct w as [|c w].
    - subst m. destruct quoted; rewrite ?StrFacts.app_nil_l;
        cbn [PyText.lstrip_char]; rewrite ?Ascii.eqb_refl; reflexivity.
    - assert (Hc : Ascii.eqb c q = false).
      { cbn [PyStr.forallb_str] in Hw. apply andb_true_iff in Hw as [Hc _].
        now apply negb_true_iff in Hc. }
      rewrite StrFacts.app_cons. cbn [PyText.lstrip_char]. rewrite Hc.
      rewrite <- StrFacts.app_cons, rev_app. subst m. destruct quoted.
      + change (PyStr.rev (String q "")) with (String q "").
        rewrite StrFacts.app_cons, StrFacts.app_nil_l.
        cbn [PyText.lstrip_char]. rewrite Ascii.eqb_refl.
        apply lstrip_char_id. now rewrite forallb_rev.
      + change (PyStr.rev "") with "". rewrite StrFacts.app_nil_l.
        apply lstrip_char_id. now rewrite forallb_rev. }
  rewrite Hr. apply rev_rev.
Qed.

Lemma split_on_none sep s :
  PyStr.forallb_str (fun c => negb (Ascii.eqb c sep)) s = true ->
  PyStr.split_on sep s = [s].
Proof.
  induction s as [|c s IH]; [reflexivity|].
  cbn [PyStr.forallb_str PyStr.split_on].
  intros [Hc Hs]%andb_true_iff. apply negb_true_iff in Hc.
  now rewrite Hc, (IH Hs).
Qed.

Lemma universal_newlines_line l rest :
  PyStr.forallb_str (fun c => negb (Ascii.eqb c "013")) l = true ->
  PyText.universal_newlines (l +:+ String "010" rest)
  = l +:+ String "010" (PyText.universal_newlines rest).
Proof.
  induction l as [|c l IH]; [reflexivity|].
  cbn [PyStr.forallb_str]. intros [Hc Hl]%andb_true_iff.
  apply negb_true_iff in Hc. rewrite !StrFacts.app_cons.
  cbn [PyText.universal_newlines]. now rewrite Hc, (IH Hl).
Qed.

Lemma readlines_line l rest :
  PyStr.forallb_str (fun c => negb (Ascii.eqb c "010")) l = true ->
  PyText.readlines (l +:+ String "010" rest)
  = (l +:+ String "010" "") :: PyText.readlines rest.
Proof.
  induction l as [|c l IH]; [reflexivity|].
  cbn [PyStr.forallb_str]. intros [Hc Hl]%andb_true_iff.
  apply negb_true_iff in Hc. rewrite !StrFacts.app_cons.
  cbn [PyText.readlines]. now rewrite Hc, (IH Hl).
Qed.

(** A line feed does not complete the prefix [ID=]. *)
Lemma prefix_id_line l :
  PyStr.prefix "ID=" l = false ->
  PyStr.prefix "ID=" (l +:+ String "010" "") = false.
Proof.
  intros H.
  destruct l as [|a [|b [|c l]]];
    rewrite ?StrFacts.app_cons, ?StrFacts.app_nil_l;
    cbn [PyStr.prefix] in *; [reflexivity| | |exact H].
  - destruct (Ascii.eqb "I" a); reflexivity.
  - destruct (Ascii.eqb "I" a), (Ascii.eqb "D" b); reflexivity.
Qed.

(** [lower] gives [y] for [y] and [Y] and for nothing else. *)
Lemma lower_is_y s :
  String.eqb (PyText.lower s) "y" = String.eqb s "y" || String.eqb s "Y".
Proof.
  destruct s as [|c [|c' s]]; [reflexivity| |].
  - destruct c as [[] [] [] [] [] [] [] []]; reflexivity.
  - cbn [PyText.lower String.eqb].
    destruct (Ascii.eqb (PyText.lower_char c) "y"), (Ascii.eqb c "y"),
      (Ascii.eqb c "Y"); reflexivity.
Qed.

End TextFacts.

Module OsFacts.

Lemma text_of_app before rest tail :
  text_of (before ++ rest) +:+ tail = text_of before +:+ text_of rest +:+ tail.
Proof.
  induction before as [|l before IH]; [reflexivity|].
  cbn [app text_of].
  rewrite !StrFacts.app_assoc, !StrFacts.app_cons, IH. reflexivity.
Qed.

(** The lines before the one sought are passed over. *)
Lemma scan_passes before rest :
  forallb other_line before = true ->
  scan_id (PyText.readlines (PyText.universal_newlines
                               (text_of before +:+ rest)))
  = scan_id (PyText.readlines (PyText.universal_newlines rest)).
Proof.
  induction before as [|l before IH]; [reflexivity|].
  cbn [forallb text_of]. intros [Hl Hb]%andb_true_iff.
  apply andb_true_iff in Hl as [Hbreaks Hid].
  apply negb_true_iff in Hid.
  rewrite StrFacts.app_assoc, StrFacts.app_cons.
  rewrite TextFacts.universal_newlines_line, TextFacts.readlines_line.
  - cbn [scan_id]. rewrite (TextFacts.prefix_id_line l Hid). exact (IH Hb).
  - revert Hbreaks. apply VersionFacts.forallb_impl.
    now intros c [_ H]%andb_true_iff.
  - revert Hbreaks. apply VersionFacts.forallb_impl.
    now intros c [H _]%andb_true_iff.
Qed.

Lemma plain_word (p : ascii -> bool) (quoted : bool) name :
  p "034"%char = true -> (forall c, plain c = true -> p c = true) ->
  PyStr.forallb_str plain name = true ->
  let q := if quoted then String "034" "" else "" in
  PyStr.forallb_str p (q +:+ name +:+ q) = true.
Proof.
  intros Hq Hp Hname q. rewrite !StrFacts.forallb_app.
  rewrite (VersionFacts.forallb_impl plain p name Hp Hname).
  subst q. destruct quoted; cbn [PyStr.forallb_str]; now rewrite ?Hq.
Qed.

Lemma plain_not_space c : plain c = true -> negb (PyStr.isspace c) = true.
Proof. unfold plain. now intros [[H _]%andb_true_iff _]%andb_true_iff. Qed.

Lemma plain_not_quote c : plain c = true -> negb (Ascii.eqb c "034") = true.
Proof. unfold plain. now intros [[_ H]%andb_true_iff _]%andb_true_iff. Qed.

Lemma plain_not_equals c : plain c = true -> negb (Ascii.eqb c "=") = true.
Proof. unfold plain. now intros [_ H]%andb_true_iff. Qed.

Lemma plain_not (b : ascii) c :
  PyStr.isspace b = true -> plain c = true -> negb (Ascii.eqb c b) = true.
Proof.
  intros Hb Hc. apply plain_not_space in Hc. apply negb_true_iff.
  destruct (Ascii.eqb_spec c b) as [->|]; [|reflexivity].
  rewrite Hb in Hc. discriminate.
Qed.

(** The line that sets [ID] gives the name. *)
Lemma scan_finds quoted name rest st :
  PyStr.forallb_str plain name = true ->
  scan_id (PyText.readlines (PyText.universal_newlines
             (id_line quoted name +:+ String "010" rest))) st
  = (Ret name, st).
Proof.
  intros Hname. unfold id_line. cbn zeta.
  set (q := if quoted then String "034" "" else "").
  assert (Hword : forall p, p "034"%char = true ->
            (forall c, plain c = true -> p c = true) ->
            PyStr.forallb_str p (q +:+ name +:+ q) = true).
  { intros p Hq Hp. exact (plain_word p quoted name Hq Hp Hname). }
  rewrite TextFacts.universal_newlines_line, TextFacts.readlines_line.
  2:{ rewrite StrFacts.forallb_app. apply andb_true_iff. split;
        [reflexivity|]. apply Hword; [reflexivity|].
      intros c; now apply plain_not. }
  2:{ rewrite StrFacts.forallb_app. apply andb_true_iff. split;
        [reflexivity|]. apply Hword; [reflexivity|].
      intros c; now apply plain_not. }
  cbn [scan_id].
  rewrite !StrFacts.app_assoc, !StrFacts.app_cons, StrFacts.app_nil_l.
  cbn [PyStr.prefix Ascii.eqb Bool.eqb andb PyStr.split_on].
  rewrite <- !StrFacts.app_assoc.
  rewrite (TextFacts.split_on_none "=").
  2:{ rewrite StrFacts.forallb_app. apply andb_true_iff. split;
        [|reflexivity]. rewrite StrFacts.app_assoc.
      apply Hword; [reflexivity|]. apply plain_not_equals. }
  cbn [lookup list_lookup].
  rewrite TextFacts.strip_line.
  2:{ rewrite StrFacts.app_assoc. apply Hword; [reflexivity|].
      apply plain_not_space. }
  rewrite StrFacts.app_assoc. subst q.
  rewrite (TextFacts.strip_char_word "034" quoted name); [reflexivity|].
  revert Hname. apply VersionFacts.forallb_impl, plain_not_quote.
Qed.

(** [detect_os] is a function of the system's name and the local
    files. *)
Lemma detect_os_cases system st :
  exists os_name,
    detect_os system st = (Ret (system, os_name), st)
    /\ (system <> "Linux" -> os_name = "")
    /\ (system = "Linux" -> files st !! os_release = None ->
        os_name = "unknown").
Proof.
  unfold detect_os, try_bare, open_text, bind, get_files, ret.
  destruct (String.eqb_spec system "Linux") as [->|Hne].
  - destruct (files st !! os_release) as [content|] eqn:Hfile.
    + destruct (scan_id (PyText.readlines (PyText.universal_newlines content))
                  st) as [[name|e] st1] eqn:Hscan.
      * assert (st1 = st) as ->.
        { revert Hscan.
          induction (PyText.readlines (PyText.universal_newlines content))
            as [|line lines IH]; cbn [scan_id]; [now intros [= _ <-]|].
          destruct (PyStr.prefix "ID=" line); [|exact IH].
          destruct (PyStr.split_on "=" line !! 1%nat);
            [now intros [= _ <-]|discriminate]. }
        exists name. split; [reflexivity|]. split; [congruence|discriminate].
      * assert (st1 = st) as ->.
        { revert Hscan.
          induction (PyText.readlines (PyText.universal_newlines content))
            as [|line lines IH]; cbn [scan_id]; [discriminate|].
          destruct (PyStr.prefix "ID=" line); [|exact IH].
          destruct (PyStr.split_on "=" line !! 1%nat);
            [discriminate|now intros [= _ <-]]. }
        exists "unknown". split; [reflexivity|].
        split; [congruence|reflexivity].
    + exists "unknown". split; [reflexivity|]. split; [congruence|reflexivity].
  - exists "". split; [reflexivity|]. split; [reflexivity|congruence].
Qed.

End OsFacts.

(** X18. [detect_os] always answers, with the system's name first, and
    changes nothing: off Linux the distribution is [''], and on Linux
    without an [os-release] file it is [unknown]. *)
Theorem detect_os_answers system st :
  exists os_name,
    detect_os system st = (Ret (system, os_name), st)
    /\ (system <> "Linux" -> os_name = "")
    /\ (system = "Linux" -> files st !! os_release = None ->
        os_name = "unknown").
Proof. exact (OsFacts.detect_os_cases system st). Qed.



(** *** Running module 3 *)

Module ToolRules.
Section ToolRules.

Variable env : Env.

Lemma wpT_ret {A} (a : A) Q ts : Q (Ret a) ts -> wpT (retT a) Q ts.
Proof. exact id. Qed.

Lemma wpT_bind {A B} (m : T A) (f : A -> T B) Q ts :
  wpT m (fun r ts' => match r with
                      | Ret a => wpT (f a) Q ts'
                      | Raise e => Q (Raise e) ts'
                      end) ts ->
  wpT (bindT m f) Q ts.
Proof.
  unfold wpT, bindT. destruct (m ts) as [[a|e] ts']; cbn [fst snd]; exact id.
Qed.

Lemma wpT_mono {A} (m : T A) (Q Q' : result A -> ToolState -> Prop) ts :
  wpT m Q ts -> (forall r ts', Q r ts' -> Q' r ts') -> wpT m Q' ts.
Proof. unfold wpT. auto. Qed.

Lemma wpT_say m Q st tr :
  Q (Ret tt) (mkToolState st (tr ++ [Said m])) ->
  wpT (say m) Q (mkToolState st tr).
Proof. exact id. Qed.

Lemma wpT_say_either (c : bool) m1 m2 Q st tr :
  Q (Ret tt) (mkToolState st (tr ++ [Said (if c then m1 else m2)])) ->
  wpT (if c then say m1 else say m2) Q (mkToolState st tr).
Proof. destruct c; exact id. Qed.

Lemma wpT_check name Q g fs t l tr :
  Q (Ret (which env t name)) (mkToolState (mkState g fs (S t) l) tr) ->
  wpT (lift (check_tool env name)) Q (mkToolState (mkState g fs t l) tr).
Proof.
  unfold wpT, lift, new_events. cbn [host transcript log fst snd check_tool ask].
  now rewrite drop_all, app_nil_r.
Qed.

Lemma wpT_run cmd Q g fs t l tr :
  Q (Ret (respond env t cmd))
    (mkToolState
       (mkState g (child_effect cmd (writes env t cmd) fs) (S t)
          (l ++ [Exec cmd (respond env t cmd)]))
       (tr ++ [Did (Exec cmd (respond env t cmd))])) ->
  wpT (lift (run_command env cmd false)) Q
    (mkToolState (mkState g fs t l) tr).
Proof.
  unfold wpT, lift, new_events.
  cbn [host transcript log fst snd]. intros HQ.
  assert (E : run_command env cmd false (mkState g fs t l)
              = (Ret (respond env t cmd),
                 mkState g (child_effect cmd (writes env t cmd) fs) (S t)
                   (l ++ [Exec cmd (respond env t cmd)]))) by reflexivity.
  rewrite E. cbn [fst snd log]. now rewrite drop_app_length.
Qed.

Lemma wpT_input Q g fs t l tr :
  Q (Ret (typed env t))
    (mkToolState (mkState g fs (S t) (l ++ [Input (typed env t)]))
       (tr ++ [Did (Input (typed env t))])) ->
  wpT (lift (input env)) Q (mkToolState (mkState g fs t l) tr).
Proof.
  unfold wpT, lift, new_events.
  cbn [host transcript log fst snd]. intros HQ.
  assert (E : input env (mkState g fs t l)
              = (Ret (typed env t),
                 mkState g fs (S t) (l ++ [Input (typed env t)])))
    by reflexivity.
  rewrite E. cbn [fst snd log]. now rewrite drop_app_length.
Qed.

Lemma wpT_detect_os system Q st tr :
  (forall os_name, Q (Ret (system, os_name)) (mkToolState st tr)) ->
  wpT (lift (detect_os system)) Q (mkToolState st tr).
Proof.
  intros HQ. unfold wpT, lift, new_events. cbn [host transcript].
  destruct (OsFacts.detect_os_cases system st) as (os_name & E & _).
  rewrite E. cbn [fst snd]. rewrite drop_all, app_nil_r. apply HQ.
Qed.

End ToolRules.
End ToolRules.

(** One step of the run of module 3 in the goal. *)
Ltac t_step :=
  cbn beta iota delta
    [negb andb orb fst snd unless for_eachT available managers
     String.eqb Ascii.eqb Bool.eqb];
  lazymatch goal with
  | |- wpT (bindT _ _) _ _ => apply ToolRules.wpT_bind
  | |- wpT (retT _) _ _ => apply ToolRules.wpT_ret
  | |- wpT (say _) _ _ => apply ToolRules.wpT_say
  | |- wpT (lift (check_tool _ _)) _ _ => apply ToolRules.wpT_check
  | |- wpT (lift (check_package_manager _ _)) _ _ =>
      apply ToolRules.wpT_check
  | |- wpT (lift (run_command _ _ false)) _ _ => apply ToolRules.wpT_run
  | |- wpT (lift (input _)) _ _ => apply ToolRules.wpT_input
  | |- wpT (install _ _ _) _ _ => unfold install
  | |- wpT (confirm _) _ _ => unfold confirm
  | |- wpT (windows_commands _ _ _) _ _ => unfold windows_commands
  | |- wpT (windows_install _ _ _ _) _ _ => unfold windows_install
  | |- wpT (install_windows _ _ _) _ _ => unfold install_windows
  | |- wpT (install_darwin _ _ _) _ _ => unfold install_darwin
  | |- wpT (install_linux _ _ _ _) _ _ => unfold install_linux
  | |- wpT (if ?c then say _ else say _) _ _ =>
      apply ToolRules.wpT_say_either
  | |- wpT (if ?b then _ else _) _ _ =>
      first [ match goal with H : b = _ |- _ => rewrite H end
            | destruct b eqn:? ]
  | |- context [if which ?e ?t ?name then _ else _] =>
      destruct (which e t name) eqn:?
  end.

Ltac t_run := repeat t_step.

(** At the end of a run of module 3: what was added. *)
Ltac t_log :=
  unfold new_lines, new_events; cbn [host transcript log globals];
  rewrite <- ?app_assoc; cbn [app]; rewrite ?drop_app_length, ?drop_all;
  cbn [done said answers commands].

Ltac t_leaf :=
  t_log;
  split; [reflexivity|];
  split; [reflexivity|];
  split; [reflexivity|];
  split; [cbn [length]; lia|];
  split;
    [ first
        [ intros H; now destruct H
        | intros _; eexists; split; [reflexivity|];
          unfold agrees; rewrite <- TextFacts.lower_is_y; assumption ]
    | ];
  split; [intros ?; first [congruence | reflexivity]|];
  split; [intros ?; first [congruence | reflexivity]|];
  split;
    [ intros ? ?; first [congruence | split; reflexivity] | ];
  split;
    [ intros ?; first [discriminate | congruence
                      | repeat match goal with
                               | H : which _ _ _ = _ |- _ => rewrite H
                               end; reflexivity ]
    | ];
  split; [intros ?; first [discriminate | congruence | reflexivity]|];
  split; [intros ?; first [discriminate | congruence | reflexivity]|];
  split;
    [ intros ? ?; first [congruence | reflexivity] | ];
  intros ? ? ?; first [congruence | reflexivity].

(** Module 3 as a whole. *)
Lemma install_tools_summary env system g fs t l tr :
  wpT (install_tools env system)
    (fun res ts' =>
       let ts := mkToolState (mkState g fs t l) tr in
       let evs := new_events (host ts) (host ts') in
       let adb := which env t "adb" in
       let openssl := which env (S t) "openssl" in
       res = Ret tt
       /\ globals (host ts') = g
       /\ done (new_lines ts ts') = evs
       /\ (length (answers evs) <= 1)%nat
       /\ (commands evs <> [] ->
           exists a, answers evs = [a] /\ agrees a = true)
       /\ (adb = true ->
           forallb (fun cmd => negb (mentions adb_packages cmd))
             (commands evs) = true)
       /\ (openssl = true ->
           forallb (fun cmd => negb (mentions openssl_packages cmd))
             (commands evs) = true)
       /\ (adb = true -> openssl = true ->
           evs = []
           /\ last (said (new_lines ts ts')) = Some MsgAllInstalled)
       /\ (system = "Windows" ->
           forallb (fun cmd =>
                      bool_decide
                        (head cmd
                         = Some (if which env (S (S t)) "choco" then "choco"
                                 else if which env (S (S (S t))) "scoop"
                                      then "scoop" else "winget")))
             (commands evs) = true)
       /\ (system = "Darwin" ->
           forallb (fun cmd => bool_decide (head cmd = Some "brew"))
             (commands evs) = true)
       /\ (system = "Linux" ->
           forallb (fun cmd => bool_decide (head cmd = Some "sudo"))
             (commands evs) = true)
       /\ (system = "Darwin" -> which env (S (S t)) "brew" = false ->
           evs = [])
       /\ (system <> "Windows" -> system <> "Darwin" ->
           system <> "Linux" -> evs = []))
    (mkToolState (mkState g fs t l) tr).
Proof.
  cbn zeta.
  destruct (String.eqb_spec system "Windows") as [->|HW];
    [|destruct (String.eqb_spec system "Darwin") as [->|HD];
      [|destruct (String.eqb_spec system "Linux") as [->|HL]]].
  all: try apply String.eqb_neq in HW, HD, HL.
  all: match goal with |- wpT _ ?Q _ => set (post := Q) end.
  all: unfold install_tools.
  all: t_run; apply ToolRules.wpT_detect_os; intros os_name.
  all: do 10 t_step.
  all: destruct (which env t "adb") eqn:Hadb,
    (which env (S t) "openssl") eqn:Hssl.
  all: t_run.
  all: subst post; cbn beta.
  all: t_leaf.
Qed.

Lemma forallb_In {A} (p : A -> bool) l x :
  forallb p l = true -> In x l -> p x = true.
Proof. intros H Hx. rewrite forallb_forall in H. auto. Qed.

(** X20. Module 3 installs nothing unasked: it puts at most one
    question, runs a command only after the answer [y] or [Y], and
    leaves the globals alone. *)
Theorem install_tools_asks_first env system ts :
  wpT (install_tools env system)
    (fun _ ts' =>
       let new := new_events (host ts) (host ts') in
       globals (host ts') = globals (host ts)
       /\ (length (answers new) <= 1)%nat
       /\ (commands new <> [] ->
           exists answer, answers new = [answer] /\ agrees answer = true))
    ts.
Proof.
  destruct ts as [[g fs t l] tr].
  eapply ToolRules.wpT_mono; [apply install_tools_summary|].
  cbn zeta. intros res ts' (_ & Hg & _ & Ha & Hc & _). auto.
Qed.

(** X21. Module 3 does not install what is there: with [adb] found no
    command names a package of [adb], with [openssl] found none names a
    package of [openssl], and with both found nothing is run or asked
    and the last line says that all tools are installed. *)
Theorem install_tools_skips_present env system ts :
  wpT (install_tools env system)
    (fun _ ts' =>
       let new := new_events (host ts) (host ts') in
       let adb := which env (now (host ts)) "adb" in
       let openssl := which env (S (now (host ts))) "openssl" in
       (adb = true ->
        forall cmd, In cmd (commands new) ->
                    mentions adb_packages cmd = false)
       /\ (openssl = true ->
           forall cmd, In cmd (commands new) ->
                       mentions openssl_packages cmd = false)
       /\ (adb = true -> openssl = true ->
           new = []
           /\ last (said (new_lines ts ts')) = Some MsgAllInstalled))
    ts.
Proof.
  destruct ts as [[g fs t l] tr].
  eapply ToolRules.wpT_mono; [apply install_tools_summary|].
  cbn zeta. cbn [host now].
  intros res ts' (_ & _ & _ & _ & _ & Hadb & Hssl & Hboth & _).
  split; [|split; [|exact Hboth]].
  - intros Ha cmd Hin. apply negb_true_iff.
    exact (forallb_In _ _ cmd (Hadb Ha) Hin).
  - intros Ho cmd Hin. apply negb_true_iff.
    exact (forallb_In _ _ cmd (Hssl Ho) Hin).
Qed.

(** X22. Module 3 installs through the package manager of the platform:
    on Windows the first at hand of [choco], [scoop] and [winget], on
    macOS [brew], on Linux the distribution's manager under [sudo]; on
    macOS without [brew] and on any other system it runs nothing and
    asks nothing. *)
Theorem install_tools_platform_manager env system ts :
  wpT (install_tools env system)
    (fun _ ts' =>
       let new := new_events (host ts) (host ts') in
       let t := now (host ts) in
       (system = "Windows" ->
        forall cmd, In cmd (commands new) ->
          head cmd
          = Some (if which env (S (S t)) "choco" then "choco"
                  else if which env (S (S (S t))) "scoop" then "scoop"
                       else "winget"))
       /\ (system = "Darwin" ->
           (forall cmd, In cmd (commands new) -> head cmd = Some "brew")
           /\ (which env (S (S t)) "brew" = false -> new = []))
       /\ (system = "Linux" ->
           forall cmd, In cmd (commands new) -> head cmd = Some "sudo")
       /\ (system <> "Windows" -> system <> "Darwin" ->
           system <> "Linux" -> new = []))
    ts.
Proof.
  destruct ts as [[g fs t l] tr].
  eapply ToolRules.wpT_mono; [apply install_tools_summary|].
  cbn zeta. cbn [host now].
  intros res ts'
    (_ & _ & _ & _ & _ & _ & _ & _ & HW & HD & HL & Hbrew & Hother).
  split; [|split; [|split; [|exact Hother]]].
  - intros Hs cmd Hin.
    exact (bool_decide_eq_true_1 _ (forallb_In _ _ cmd (HW Hs) Hin)).
  - intros Hs. split; [|exact (Hbrew Hs)]. intros cmd Hin.
    exact (bool_decide_eq_true_1 _ (forallb_In _ _ cmd (HD Hs) Hin)).
  - intros Hs cmd Hin.
    exact (bool_decide_eq_true_1 _ (forallb_In _ _ cmd (HL Hs) Hin)).
Qed.

(** ** The menu and the process *)

Lemma as_module_returns env system st :
  (as_module (install_tools env system) st).1 = Ret tt.
Proof.
  destruct st as [g fs t l].
  pose proof (install_tools_summary env system g fs t l []) as H.
  unfold wpT in H. unfold as_module. cbn [fst]. now destruct H as [-> _].
Qed.

(** Whatever the choice, one pass through the menu returns: what a
    module raises is caught and reported. *)
Lemma dispatch_total env tools st :
  (forall st', not_exit (tools st').1) ->
  wp (dispatch env tools) (fun res _ => res = Ret tt) st.
Proof.
  intros Htools. destruct st as [g fs t l]. unfold dispatch.
  apply Rules.wp_try, Rules.wp_bind. unfold show_menu.
  do 5 wp_step. cbn beta iota.
  assert (Hcaught : forall (m : M unit) st0,
    wp m (fun res _ => not_exit res) st0 ->
    wp m (fun r st' =>
            match r with
            | Ret a => Ret a = Ret tt
            | Raise e =>
                if is_Exception e
                then wp (print (MsgError e)) (fun res _ => res = Ret tt) st'
                else @Raise unit e = Ret tt
            end) st0).
  { intros m st0 Hm. eapply Rules.wp_mono; [exact Hm|].
    intros [[]|e] st' Hne; [reflexivity|].
    destruct e; try reflexivity. now destruct (Hne status). }
  set (choice := PyStr.strip (typed env t)).
  destruct (String.eqb choice "1");
    [apply Hcaught; eapply Rules.wp_mono;
       [apply push_burp_cert_summary|now intros ? ? [? _]]|].
  destruct (String.eqb choice "2");
    [apply Hcaught; eapply Rules.wp_mono;
       [apply run_frida_server_summary|now intros ? ? [? _]]|].
  destruct (String.eqb choice "3");
    [apply Hcaught; unfold wp; apply Htools|].
  destruct (String.eqb choice "4"); reflexivity.
Qed.

(** X23. One pass through the menu always returns: whatever a module
    raises is caught and reported, provided module 3 does not end the
    process. *)
Theorem dispatch_returns env tools st :
  (forall st', not_exit (tools st').1) ->
  wp (dispatch env tools) (fun res _ => res = Ret tt) st.
Proof. exact (dispatch_total env tools st). Qed.

Lemma dispatch_returns_witness :
  let env := Scenario.workstation Scenario.respond_ok "3" "0" in
  let tools := as_module (install_tools env "Linux") in
  (forall st', not_exit (tools st').1)
  /\ wp (dispatch env tools) (fun res _ => res = Ret tt) Scenario.ready.
Proof.
  intros env tools.
  assert (H : forall st', not_exit (tools st').1).
  { intros st' status. unfold tools. rewrite as_module_returns.
    discriminate. }
  split; [exact H|].
  apply (dispatch_returns env tools Scenario.ready H).
Defined.



(** X25. A choice other than 1, 2 and 3 runs no module: nothing is run
    or fetched, no further question is put, and globals and files stay
    as they were. *)
Theorem dispatch_other_choice env tools st :
  str_in (PyStr.strip (typed env (now st))) ["1"; "2"; "3"] = false ->
  wp (dispatch env tools)
    (fun res st' =>
       res = Ret tt
       /\ commands (new_events st st') = []
       /\ downloads (new_events st st') = 0%nat
       /\ answers (new_events st st') = [typed env (now st)]
       /\ globals st' = globals st /\ files st' = files st)
    st.
Proof.
  destruct st as [g fs t l]. cbn [now globals files]. intros Hchoice.
  cbn [str_in existsb] in Hchoice.
  apply orb_false_iff in Hchoice as [H1 Hchoice].
  apply orb_false_iff in Hchoice as [H2 Hchoice].
  apply orb_false_iff in Hchoice as [H3 _].
  unfold dispatch. apply Rules.wp_try, Rules.wp_bind. unfold show_menu.
  do 5 wp_step. cbn beta iota. rewrite H1, H2, H3.
  destruct (String.eqb (PyStr.strip (typed env t)) "4");
    apply Rules.wp_print; wp_log; repeat split; reflexivity.
Qed.

Lemma dispatch_other_choice_witness :
  let env := Scenario.workstation Scenario.respond_ok "7" "0" in
  let st := Scenario.ready in
  str_in (PyStr.strip (typed env (now st))) ["1"; "2"; "3"] = false
  /\ wp (dispatch env (ret tt))
       (fun res st' =>
          res = Ret tt
          /\ commands (new_events st st') = []
          /\ downloads (new_events st st') = 0%nat
          /\ answers (new_events st st') = [typed env (now st)]
          /\ globals st' = globals st /\ files st' = files st)
       st.
Proof.
  intros env st. split; [reflexivity|].
  apply (dispatch_other_choice env (ret tt) st). reflexivity.
Defined.
